(** * Materials application: predicate builder, write coordinator and
      collection operations

    A shallow embedding of [apps/materials/views.py] and
    [apps/materials/serializers.py].

    - Storage tables are lists of records, in insertion order.
    - The selection predicates the views build with SQLAlchemy's [==], [&],
      [|] and [like] are a small syntax tree, [clause], evaluated with SQL's
      three-valued logic.  Python's [None] accumulator is [option clause].
    - The query string is a multidict: an association list with repeated
      keys, read with [get] and [getall].
    - Dictionaries ([validated_data], the multipart field map) are finite
      maps from strings.
    - A view returns a [result]: a response, or the exception it raises.

    Code of the repository that the two files call but that is not part of
    them ([utils.views], [utils.serializers], [utils.pagination], the table
    declarations) is taken as a parameter of the section, or modelled from
    the specification where a definition says so. *)

From Stdlib Require Import ZArith Bool List Ascii String.
From stdpp Require Import gmap strings list pretty.
Import ListNotations.

Local Open Scope string_scope.

Set Warnings "-register-all".

(** ** Storage rows *)

Record User := { u_id : Z; u_role : Z }.

Record Category := { c_id : Z; c_name : string }.

Record Material := {
  m_id : Z;
  m_name : string;
  m_author : string;
  m_type : string;
  m_file : string;
  m_extension : string;
  m_owner : Z;
  m_is_open : bool;
  m_deleted : bool;
  m_auto_date : Z
}.

Record MaterialCategory := { mc_material : Z; mc_category : Z }.

Record MaterialUser := { mu_material : Z; mu_user : Z }.

Record db := {
  users : list User;
  categories : list Category;
  materials : list Material;
  material_categories : list MaterialCategory;
  material_users : list MaterialUser
}.

(** ** Exceptions and results *)

Inductive exn :=
| ValueError
| TypeError
| KeyError (key : string)
| AttributeError
| JSONDecodeError
| CompileError
| PermissionDenied
| ValidationError (errors : list (string * string))
| IntegrityError (code : Z)
| OperationalError (code : Z).

Inductive result (A : Type) :=
| Ok (a : A)
| Raise (e : exn).

Arguments Ok {A} a.
Arguments Raise {A} e.

Definition bind {A B} (r : result A) (k : A -> result B) : result B :=
  match r with
  | Ok a => k a
  | Raise e => Raise e
  end.

Notation "'let*' x ':=' r 'in' k" := (bind r (fun x => k))
  (at level 10, x name, r at level 100, k at level 200).

(** ** Requests *)

(** [request.query]: aiohttp's multidict. *)
Definition multidict := list (string * string).

(** [query.get(key)]: the first value stored under [key], or [None]. *)
Fixpoint get (key : string) (q : multidict) : option string :=
  match q with
  | [] => None
  | (k, v) :: q' => if String.eqb k key then Some v else get key q'
  end.

(** The values stored under [key], in order. *)
Fixpoint values_of (key : string) (q : multidict) : list string :=
  match q with
  | [] => []
  | (k, v) :: q' =>
      if String.eqb k key then v :: values_of key q' else values_of key q'
  end.

(** [query.getall(key, None)]: all values of [key], or the default [None]
    when the key does not occur. *)
Definition getall (key : string) (q : multidict) : option (list string) :=
  match values_of key q with
  | [] => None
  | vs => Some vs
  end.

(** The multidict without the entries of [key]. *)
Definition without (key : string) (q : multidict) : multidict :=
  List.filter (fun kv => negb (String.eqb (fst kv) key)) q.

(** Values held by the dictionaries of the write path. *)
Inductive json :=
| JNull
| JBool (b : bool)
| JNumber (z : Z)
| JString (s : string)
| JArray (items : list json)
| JObject (members : list (string * json)).

Inductive value :=
| VStr (s : string)
| VInt (z : Z)
| VBool (b : bool)
| VFile (filename : string) (data : string)
| VJson (j : json)
| VCategories (cs : list Category).

(** The parts of an aiohttp request the views read: the query string, the
    authenticated user [request['user']], the [pk] segment of the route
    ([match_info['pk']], a string of digits), [can_read_body] and the field
    map that [get_multipart_data] decodes from the body. *)
Record Request := {
  query : multidict;
  user : User;
  pk : string;
  can_read_body : bool;
  multipart_data : gmap string value
}.

(** The request with another query string. *)
Definition with_query (q : multidict) (request : Request) : Request :=
  {| query := q;
     user := user request;
     pk := pk request;
     can_read_body := can_read_body request;
     multipart_data := multipart_data request |}.

(** ** Selection predicates *)

(** The expressions that the views build over the columns of [Material]:
    [column == value], [column.like(pattern)], [a & b] and [a | b].
    SQLAlchemy's [&] and [|] coerce a [None] operand to the SQL literal
    [NULL]; that literal is [Null]. *)
Inductive clause :=
| IsOpenEq (b : bool)
| DeletedEq (b : bool)
| IdEq (v : Z)
| TypeEq (s : string)
| NameLike (pattern : string)
| AuthorLike (pattern : string)
| Null
| And (a b : clause)
| Or (a b : clause).

(** SQL's three-valued connectives; [None] is UNKNOWN. *)
Definition and3 (x y : option bool) : option bool :=
  match x, y with
  | Some false, _ | _, Some false => Some false
  | Some true, Some true => Some true
  | _, _ => None
  end.

Definition or3 (x y : option bool) : option bool :=
  match x, y with
  | Some true, _ | _, Some true => Some true
  | Some false, Some false => Some false
  | _, _ => None
  end.

(** [expr | other] and [expr & other] where [expr] is a clause and [other]
    may be [None]. *)
Definition coerce (other : option clause) : clause :=
  match other with
  | Some c => c
  | None => Null
  end.

Definition or_ (expr : clause) (other : option clause) : clause :=
  Or expr (coerce other).

Definition and_ (expr : clause) (other : option clause) : clause :=
  And expr (coerce other).

(** [acc |= other] guarded by [if acc is not None ... else acc = other]. *)
Definition ior (acc other : option clause) : option clause :=
  match acc with
  | Some c => Some (or_ c other)
  | None => other
  end.

(** [acc &= other] guarded by [if acc is not None ... else acc = other]. *)
Definition iand (acc other : option clause) : option clause :=
  match acc with
  | Some c => Some (and_ c other)
  | None => other
  end.

(** ** Connection state and effects *)

(** What a view can change: the tables as the connection sees them, the
    tables as they were when the open transaction began ([None] outside a
    transaction), and the files under the media root. *)
Record state := {
  current : db;
  snapshot : option db;
  disk : gmap string string
}.

Definition M (A : Type) : Type := state -> result A * state.

Definition ret {A} (a : A) : M A := fun s => (Ok a, s).

Definition raise {A} (e : exn) : M A := fun s => (Raise e, s).

Definition lift {A} (r : result A) : M A := fun s => (r, s).

Definition bindM {A B} (m : M A) (k : A -> M B) : M B :=
  fun s =>
    match m s with
    | (Ok a, s') => k a s'
    | (Raise e, s') => (Raise e, s')
    end.

Notation "'do*' x ':=' m 'in' k" := (bindM m (fun x => k))
  (at level 10, x name, m at level 100, k at level 200).

(** [try: body except Exception as e: handler(e)] *)
Definition try_except {A} (body : M A) (handler : exn -> M A) : M A :=
  fun s =>
    match body s with
    | (Ok a, s') => (Ok a, s')
    | (Raise e, s') => handler e s'
    end.

Definition read {A} (f : db -> A) : M A := fun s => (Ok (f (current s)), s).

Definition with_current (d : db) (s : state) : state :=
  {| current := d; snapshot := snapshot s; disk := disk s |}.

Definition with_disk (files : gmap string string) (s : state) : state :=
  {| current := current s; snapshot := snapshot s; disk := files |}.

Definition set_current (d : db) : M unit :=
  fun s => (Ok tt, with_current d s).

(** [conn.begin()], [trans.rollback()] and [trans.commit()] *)
Definition begin : M unit :=
  fun s =>
    (Ok tt,
     {| current := current s; snapshot := Some (current s); disk := disk s |}).

Definition rollback : M unit :=
  fun s =>
    (Ok tt,
     {| current := default (current s) (snapshot s);
        snapshot := None;
        disk := disk s |}).

Definition commit : M unit :=
  fun s =>
    (Ok tt, {| current := current s; snapshot := None; disk := disk s |}).

(** ** Python strings *)

Fixpoint rfind_from (c : ascii) (s : string) (i last : Z) : Z :=
  match s with
  | EmptyString => last
  | String a s' =>
      rfind_from c s' (i + 1)%Z (if Ascii.eqb a c then i else last)
  end.

(** [s.rfind(c)] for a one-character [c]: the last index of [c], or -1. *)
Definition rfind (c : ascii) (s : string) : Z := rfind_from c s 0%Z (-1)%Z.

(** [s.find(sub)]: the first index of [sub] in [s], or -1. *)
Definition find (sub s : string) : Z :=
  match String.index 0 sub s with
  | Some n => Z.of_nat n
  | None => (-1)%Z
  end.

(** [s[i:]] for an index [i >= 0]. *)
Definition slice_from (i : Z) (s : string) : string :=
  String.substring (Z.to_nat i) (String.length s - Z.to_nat i) s.

Record datetime := { year : Z; month : Z; day : Z; stamp : Z }.

(** ** Responses *)

(** A serialized material: the row, the owner's representation in place of
    the owner id, and the categories it is linked to. *)
Record document := {
  doc_row : Material;
  doc_owner : option User;
  doc_categories : list (option Category)
}.

Inductive body :=
| NoBody
| Documents (docs : list document)
| Document (doc : option document)
| ExceptionDetail (exception : exn).

Record response := { status : Z; content : body }.

(** ** Sample parameters and data *)

Module Sample.

(** A decimal numeral, for [int()] and for the storage layer's cast. *)
Fixpoint digits (s : string) (acc : Z) : option Z :=
  match s with
  | EmptyString => Some acc
  | String a s' =>
      let n := Ascii.nat_of_ascii a in
      if (48 <=? n)%nat && (n <=? 57)%nat
      then digits s' (10 * acc + Z.of_nat (n - 48))%Z
      else None
  end.

Definition int (s : string) : option Z :=
  match s with
  | EmptyString => None
  | _ => digits s 0%Z
  end.

Definition eq_int (column : Z) (s : string) : bool :=
  match int s with
  | Some n => Z.eqb column n
  | None => false
  end.

Definition int_of (s : string) : Z := default 0%Z (int s).

(** [LIKE] for the patterns [%fragment%] of the search view. *)
Definition like (column pattern : string) : bool :=
  let fragment := String.substring 1 (String.length pattern - 2) pattern in
  match String.index 0 fragment column with
  | Some _ => true
  | None => false
  end.

Definition MODERATOR : Z := 2.

(** A JSON reader for lists of numbers without spaces, such as [[7,9]]. *)
Fixpoint numbers (s : string) (acc : option Z) : option (list json) :=
  match s with
  | EmptyString => None
  | String a s' =>
      let n := Ascii.nat_of_ascii a in
      if (48 <=? n)%nat && (n <=? 57)%nat then
        numbers s' (Some (10 * default 0 acc + Z.of_nat (n - 48))%Z)
      else if Ascii.eqb a "," then
        match acc with
        | Some z => option_map (cons (JNumber z)) (numbers s' None)
        | None => None
        end
      else if Ascii.eqb a "]" then
        match acc, s' with
        | Some z, EmptyString => Some [JNumber z]
        | _, _ => None
        end
      else None
  end.

Definition loads (s : string) : option json :=
  match s with
  | "[]" => Some (JArray [])
  | String "[" s' => option_map JArray (numbers s' None)
  | _ => None
  end.

Definition category_of (j : json) : list Category :=
  match j with
  | JNumber z => [{| c_id := z; c_name := "" |}]
  | _ => []
  end.

(** A validator that requires the text fields and the file, reads
    [is_open], and passes a supplied [owner] on. *)
Definition is_valid (d : db) (method : string) (partial : bool)
    (data : gmap string value) : result (gmap string value) :=
  match data !! "name", data !! "author", data !! "type", data !! "file",
        data !! "categories" with
  | Some (VStr name), Some (VStr author), Some (VStr type),
    Some (VFile filename content), Some (VJson (JArray items)) =>
      let validated : gmap string value :=
        <["name" := VStr name]>
          (<["author" := VStr author]>
             (<["type" := VStr type]>
                (<["file" := VFile filename content]>
                   (<["is_open" :=
                        VBool match data !! "is_open" with
                              | Some (VStr "true") => true
                              | _ => false
                              end]>
                      (<["categories" := VCategories (flat_map category_of items)]>
                         ∅))))) in
      Ok match data !! "owner" with
         | Some v => <["owner" := v]> validated
         | None => validated
         end
  | None, _, _, _, _ => Raise (ValidationError [("name", "This field is required")])
  | _, _, _, _, _ => Raise (ValidationError [("file", "This field is required")])
  end.

(** A value for [str.upper()] on the sample texts, which are ASCII: a
    letter from [a] to [z] becomes its capital. *)
Definition upper_ascii (a : ascii) : ascii :=
  let n := Ascii.nat_of_ascii a in
  if (97 <=? n)%nat && (n <=? 122)%nat
  then Ascii.ascii_of_nat (n - 32)
  else a.

Fixpoint upper (s : string) : string :=
  match s with
  | EmptyString => EmptyString
  | String a s' => String (upper_ascii a) (upper s')
  end.

Definition MEDIA_URL : string := "media".
Definition MEDIA_ROOT : string := "/srv/app/media".
Definition BASE_DIR : string := "/srv/app".

Definition path_to_file (root : string) (upload_to : option string)
    (y m d : Z) : string :=
  root ++ "/" ++ default "" upload_to ++ "/" ++ pretty y ++ "/" ++ pretty m
  ++ "/" ++ pretty d.

Definition file_name (files : gmap string string) (path name : string)
  : string :=
  name.

Definition now : datetime :=
  {| year := 2019; month := 5; day := 17; stamp := 1558051200 |}.

Definition all_rows (request : Request) (rows : list Material)
  : list Material :=
  rows.

(** Two users and a moderator; material 10 is open, material 11 is the
    closed material of user 1, who has collected both; category 3 has one
    material and category 7 has none. *)
Definition alice : User := {| u_id := 1; u_role := 0 |}.
Definition bob : User := {| u_id := 2; u_role := 0 |}.
Definition carol : User := {| u_id := 3; u_role := 2 |}.

Definition notes : Material :=
  {| m_id := 10; m_name := "Algebra notes"; m_author := "Noether";
     m_type := "pdf"; m_file := "/media/materials/2019/5/1/notes.pdf";
     m_extension := "PDF"; m_owner := 1; m_is_open := true;
     m_deleted := false; m_auto_date := 1556668800 |}.

Definition draft : Material :=
  {| m_id := 11; m_name := "Draft"; m_author := "Noether";
     m_type := "doc"; m_file := "/media/materials/2019/5/2/draft.doc";
     m_extension := "DOC"; m_owner := 1; m_is_open := false;
     m_deleted := false; m_auto_date := 1556755200 |}.

Definition tables : db :=
  {| users := [alice; bob; carol];
     categories := [{| c_id := 3; c_name := "Mathematics" |};
                    {| c_id := 7; c_name := "History" |}];
     materials := [notes; draft];
     material_categories := [{| mc_material := 10; mc_category := 3 |}];
     material_users := [{| mu_material := 10; mu_user := 1 |};
                        {| mu_material := 11; mu_user := 1 |};
                        {| mu_material := 10; mu_user := 3 |}] |}.

Definition start : state :=
  {| current := tables; snapshot := None; disk := ∅ |}.

Definition asks (u : User) (q : multidict) : Request :=
  {| query := q; user := u; pk := "10"; can_read_body := false;
     multipart_data := ∅ |}.

Definition form (categories : string) : gmap string value :=
  <["name" := VStr "Topology"]>
    (<["author" := VStr "Hausdorff"]>
       (<["type" := VStr "pdf"]>
          (<["file" := VFile "sets.pdf" "%PDF"]>
             (<["is_open" := VStr "true"]>
                (<["categories" := VStr categories]> ∅))))).

Definition posts (u : User) (data : gmap string value) : Request :=
  {| query := []; user := u; pk := ""; can_read_body := true;
     multipart_data := data |}.

End Sample.

Section Views.

(** Python's [int(s)]; [None] stands for [ValueError]. *)
Variable py_int : string -> option Z.

(** The storage layer's [=] between an integer column and a bound string. *)
Variable sql_eq_int : Z -> string -> bool.

(** The storage layer's [=] between a text column and a bound string. *)
Variable sql_eq_str : string -> string -> bool.

(** The storage layer's [LIKE]: column value, then pattern. *)
Variable sql_like : string -> string -> bool.

(** The role constant [project.permissions.MODERATOR]. *)
Variable MODERATOR : Z.

(** The integer the storage layer stores when a string is bound to an
    integer column of an [INSERT]. *)
Variable sql_int_of : string -> Z.

(** [json.loads]; [None] stands for [JSONDecodeError]. *)
Variable json_loads : string -> option json.

(** [ModelSerializer.is_valid] of [utils.serializers] for the fields that
    [MaterialSerializer] declares: given the method, the [partial] flag and
    the input, the validated data or the [ValidationError] it raises. *)
Variable base_is_valid :
  db -> string -> bool -> gmap string value -> result (gmap string value).

(** [project.settings] *)
Variable MEDIA_URL : string.
Variable MEDIA_ROOT : string.
Variable BASE_DIR : string.

(** [utils.media]: the directory of an upload, and a file name that is
    free in that directory. *)
Variable generate_path_to_file : string -> option string -> Z -> Z -> Z -> string.
Variable generate_file_name : gmap string string -> string -> string -> string.

(** [datetime.now()] *)
Variable now : datetime.

(** Python's [str.upper()], on the encoded text. *)
Variable upper : string -> string.

(** [utils.pagination]: the page of the rows of a query that a request
    asks for.  The list view has its paginator from [get_pagination_class],
    which may be [None]; the search view always uses [PagePagination]. *)
Variable list_paginator : option (Request -> list Material -> list Material).
Variable page_paginator : Request -> list Material -> list Material.

(** The value of a condition on a row; [None] is UNKNOWN. *)
Fixpoint eval (c : clause) (row : Material) : option bool :=
  match c with
  | IsOpenEq b => Some (Bool.eqb (m_is_open row) b)
  | DeletedEq b => Some (Bool.eqb (m_deleted row) b)
  | IdEq v => Some (Z.eqb (m_id row) v)
  | TypeEq s => Some (sql_eq_str (m_type row) s)
  | NameLike p => Some (sql_like (m_name row) p)
  | AuthorLike p => Some (sql_like (m_author row) p)
  | Null => None
  | And a b => and3 (eval a row) (eval b row)
  | Or a b => or3 (eval a row) (eval b row)
  end.

(** A [WHERE] clause keeps the rows whose condition is TRUE. *)
Definition holds (c : clause) (row : Material) : bool :=
  match eval c row with
  | Some true => true
  | _ => false
  end.

(** *** Predicate builder *)

(** The loops over junction rows (lines 204-209 and 238-243): the
    disjunction of [Material.c.id == r] over the material ids [ids], [None]
    when there is no row. *)
Definition materials_of (ids : list Z) : option clause :=
  fold_left (fun materials v => ior materials (Some (IdEq v))) ids None.

(** Line 202: the materials of the junction rows of one category. *)
Definition category_rows (d : db) (category : string) : list Z :=
  map mc_material
    (List.filter (fun mc => sql_eq_int (mc_category mc) category)
       (material_categories d)).

(** Line 236: the materials of the junction rows of one user. *)
Definition owner_rows (d : db) (owner : string) : list Z :=
  map mu_material
    (List.filter (fun mu => sql_eq_int (mu_user mu) owner)
       (material_users d)).

(** The loop of lines 200-214. *)
Definition category_queryset (d : db) (cats : list string) : option clause :=
  fold_left
    (fun acc category => ior acc (materials_of (category_rows d category)))
    cats None.

(** The loop of lines 223-228. *)
Definition type_queryset (types : list string) : option clause :=
  fold_left (fun acc m_type => ior acc (Some (TypeEq m_type))) types None.

(** Line 194. *)
Definition visibility : clause := And (IsOpenEq true) (DeletedEq false).

(** [get_queryset_by_user] *)
Definition get_queryset_by_user (request : Request) (d : db)
  : result (option clause) :=
  let owner := get "owner" (query request) in
  let* queryset :=
    match owner with
    | None => Ok (Some visibility)
    | Some o =>
        match py_int o with
        | None => Raise ValueError
        | Some n =>
            if negb (Z.eqb (u_id (user request)) n)
            then Ok (Some visibility)
            else Ok None
        end
    end in
  let queryset :=
    match getall "category" (query request) with
    | Some cats => iand queryset (category_queryset d cats)
    | None => queryset
    end in
  let queryset :=
    match getall "type" (query request) with
    | Some types => iand queryset (type_queryset types)
    | None => queryset
    end in
  let queryset :=
    match owner with
    | Some o => iand queryset (materials_of (owner_rows d o))
    | None => queryset
    end in
  Ok queryset.

(** *** Serializers (read path) *)

(** [MaterialCategorySerializer.to_json] for one junction row: the
    category the row points to, serialized by [CategorySerializer]. *)
Definition MaterialCategorySerializer_to_json (d : db)
    (row : MaterialCategory) : option Category :=
  List.find (fun c => Z.eqb (c_id c) (mc_category row)) (categories d).

(** [MaterialSerializer.to_json] for one row.  The base serializer, which
    is not part of the two files, renders the declared fields and replaces
    [owner] by the user's representation; the override then attaches the
    categories of the junction rows of this material. *)
Definition MaterialSerializer_to_json (d : db) (row : Material) : document :=
  {| doc_row := row;
     doc_owner := List.find (fun u => Z.eqb (u_id u) (m_owner row)) (users d);
     doc_categories :=
       map (MaterialCategorySerializer_to_json d)
         (List.filter (fun mc => Z.eqb (mc_material mc) (m_id row))
            (material_categories d)) |}.

(** *** Listing and search *)

(** Modelled from the spec: [utils.views.build_query] is missing.  The
    predicate builder produces "a sentinel match all when no dimension is
    supplied"; that sentinel is the [None] queryset. *)
Definition matches (queryset : option clause) (row : Material) : bool :=
  match queryset with
  | Some c => holds c row
  | None => true
  end.

(** The rows of [Material.select().where(queryset)]. *)
Definition select_where (queryset : option clause) (d : db) : list Material :=
  List.filter (matches queryset) (materials d).

(** [MaterialsView.get].  The body of the response is the list of
    documents of the page; the envelope that [get_paginated_data] puts
    around it is left out, here and in the search view. *)
Definition MaterialsView_get (request : Request) (d : db) : result response :=
  let* queryset := get_queryset_by_user request d in
  let rows := select_where queryset d in
  let rows :=
    match list_paginator with
    | Some paginate => paginate request rows
    | None => rows
    end in
  Ok {| status := 200;
        content := Documents (map (MaterialSerializer_to_json d) rows) |}.

(** [search_materials] *)
Definition search_materials (request : Request) (d : db) : result response :=
  match get "text" (query request) with
  | None =>
      Raise (ValidationError [("text", "This query parameters is required")])
  | Some text =>
      let* queryset := get_queryset_by_user request d in
      let like := "%" ++ text ++ "%" in
      match queryset with
      | None => Raise TypeError
      | Some q =>
          let queryset := and_ q (Some (Or (NameLike like) (AuthorLike like))) in
          let rows := List.filter (holds queryset) (materials d) in
          let rows := page_paginator request rows in
          Ok {| status := 200;
                content := Documents (map (MaterialSerializer_to_json d) rows) |}
      end
  end.

(** *** Statements of the write path *)

(** Modelled from the spec: the table declarations of
    [apps.materials.models] are missing.  [Material] has the columns of the
    data model; [deleted] defaults to false and [auto_date] to the time of
    the insert; the generated key is never part of the values; [owner]
    references [User]; a [MaterialUser] row references its [Material] and its
    [User] and the pair is unique; a [MaterialCategory] row references its
    [Material] and its [Category]. *)
Definition Material_columns : gset string :=
  {[ "name"; "author"; "type"; "file"; "extension"; "owner"; "is_open";
     "deleted"; "auto_date" ]}.

(** The value of a required text column. *)
Definition str_column (column : string) (vs : gmap string value)
  : result string :=
  match vs !! column with
  | Some (VStr s) => Ok s
  | _ => Raise (OperationalError 1364)
  end.

(** The key that the next insert into [Material] generates. *)
Definition lastrowid (d : db) : Z :=
  (1 + fold_right Z.max 0 (map m_id (materials d)))%Z.

(** The row that an insert of the values [vs] stores, or the error of a
    name that is not a column, or of a required column without a value. *)
Definition Material_row (d : db) (vs : gmap string value) : result Material :=
  if negb (bool_decide (dom vs ⊆ Material_columns)) then Raise CompileError
  else
    let* name := str_column "name" vs in
    let* author := str_column "author" vs in
    let* type := str_column "type" vs in
    let* file := str_column "file" vs in
    let* extension := str_column "extension" vs in
    let* owner :=
      match vs !! "owner" with
      | Some (VInt z) => Ok z
      | _ => Raise (OperationalError 1364)
      end in
    let* is_open :=
      match vs !! "is_open" with
      | Some (VBool b) => Ok b
      | _ => Raise (OperationalError 1364)
      end in
    Ok {| m_id := lastrowid d;
          m_name := name;
          m_author := author;
          m_type := type;
          m_file := file;
          m_extension := extension;
          m_owner := owner;
          m_is_open := is_open;
          m_deleted :=
            match vs !! "deleted" with Some (VBool b) => b | _ => false end;
          m_auto_date :=
            match vs !! "auto_date" with Some (VInt z) => z | _ => stamp now end
       |}.

Definition has_user (d : db) (u : Z) : bool :=
  existsb (fun r => Z.eqb (u_id r) u) (users d).

Definition has_material (d : db) (m : Z) : bool :=
  existsb (fun r => Z.eqb (m_id r) m) (materials d).

Definition has_category (d : db) (c : Z) : bool :=
  existsb (fun r => Z.eqb (c_id r) c) (categories d).

Definition has_material_user (d : db) (m u : Z) : bool :=
  existsb (fun r => Z.eqb (mu_material r) m && Z.eqb (mu_user r) u)
    (material_users d).

Definition set_materials (ms : list Material) (d : db) : db :=
  {| users := users d; categories := categories d; materials := ms;
     material_categories := material_categories d;
     material_users := material_users d |}.

Definition set_material_categories (mcs : list MaterialCategory) (d : db) : db :=
  {| users := users d; categories := categories d; materials := materials d;
     material_categories := mcs;
     material_users := material_users d |}.

Definition set_material_users (mus : list MaterialUser) (d : db) : db :=
  {| users := users d; categories := categories d; materials := materials d;
     material_categories := material_categories d;
     material_users := mus |}.

(** [conn.execute(Material.insert().values( **vs ))]; the result is the
    cursor's [lastrowid]. *)
Definition insert_Material (vs : gmap string value) : M Z :=
  do* d := read (fun d => d) in
  do* row := lift (Material_row d vs) in
  if has_user d (m_owner row)
  then do* _ := set_current (set_materials (materials d ++ [row]) d) in
       ret (m_id row)
  else raise (IntegrityError 1452).

(** [conn.execute(MaterialUser.insert().values(material=m, user=u))] *)
Definition insert_MaterialUser (m u : Z) : M unit :=
  do* d := read (fun d => d) in
  if has_material_user d m u then raise (IntegrityError 1062)
  else if has_material d m && has_user d u
  then set_current
         (set_material_users
            (material_users d ++ [{| mu_material := m; mu_user := u |}]) d)
  else raise (IntegrityError 1452).

(** [conn.execute(MaterialCategory.insert().values(material=m, category=c))] *)
Definition insert_MaterialCategory (m c : Z) : M unit :=
  do* d := read (fun d => d) in
  if has_material d m && has_category d c
  then set_current
         (set_material_categories
            (material_categories d ++ [{| mc_material := m; mc_category := c |}])
            d)
  else raise (IntegrityError 1452).

(** [conn.execute(MaterialUser.delete().where(cond))] *)
Definition delete_MaterialUser (cond : MaterialUser -> bool) : M unit :=
  do* d := read (fun d => d) in
  set_current
    (set_material_users
       (List.filter (fun r => negb (cond r)) (material_users d)) d).

(** [conn.execute(Material.update().values(deleted=True).where(cond))] *)
Definition mark_deleted (row : Material) : Material :=
  {| m_id := m_id row; m_name := m_name row; m_author := m_author row;
     m_type := m_type row; m_file := m_file row;
     m_extension := m_extension row; m_owner := m_owner row;
     m_is_open := m_is_open row; m_deleted := true;
     m_auto_date := m_auto_date row |}.

Definition update_deleted (cond : Material -> bool) : M unit :=
  do* d := read (fun d => d) in
  set_current
    (set_materials
       (map (fun r => if cond r then mark_deleted r else r) (materials d)) d).

(** *** Serializer (write path) *)

(** [MaterialSerializer.is_valid] *)
Definition MaterialSerializer_is_valid (request : Request) (d : db)
    (method : string) (partial : bool) (data : gmap string value)
  : result (gmap string value) :=
  let* validated_data := base_is_valid d method partial data in
  Ok (<["owner" := VInt (u_id (user request))]> validated_data).

(** Modelled from the spec: [Serializer.create_validate] of
    [utils.serializers] is missing.  The write path validates the input
    and injects the authenticated requester's id as [owner], which is what
    [is_valid] does for the method [create]. *)
Definition create_validate (request : Request) (d : db)
    (data : gmap string value) : result (gmap string value) :=
  MaterialSerializer_is_valid request d "create" false data.

(** [serializer.file_fields]: the one [FileField] that [MaterialSerializer]
    declares, with its [upload_to]. *)
Definition file_fields : list (string * option string) :=
  [("file", Some "materials")].

(** *** Creation *)

(** Python's truth value of a field of the multipart map. *)
Definition truthy (v : value) : bool :=
  match v with
  | VStr s => negb (String.eqb s "")
  | _ => true
  end.

(** Line 54: [json.loads(data['categories']) if data['categories'] else []],
    with the [except] clause of line 55. *)
Definition load_categories (data : gmap string value) : result json :=
  match data !! "categories" with
  | None => Raise (KeyError "categories")
  | Some v =>
      if truthy v then
        match v with
        | VStr s =>
            match json_loads s with
            | Some j => Ok j
            | None => Raise (ValidationError [("categories", "JSON decode error")])
            end
        | _ => Raise TypeError
        end
      else Ok (JArray [])
  end.

(** One round of the loop of lines 62-78. *)
Definition store_file (field : string * option string)
    (validated_data : gmap string value) : M (gmap string value) :=
  let (file_name, upload_to) := field in
  let path :=
    generate_path_to_file MEDIA_ROOT upload_to (year now) (month now) (day now) in
  match validated_data !! file_name with
  | None => raise (KeyError file_name)
  | Some (VFile original data) =>
      fun s =>
        let filename := generate_file_name (disk s) path original in
        let url :=
          "/" ++ MEDIA_URL ++ "/"
          ++ match upload_to with Some u => u ++ "/" | None => "" end
          ++ pretty (year now) ++ "/" ++ pretty (month now) ++ "/"
          ++ pretty (day now) ++ "/" ++ filename in
        let index := rfind "." filename in
        (Ok (<["extension" := VStr (upper (slice_from (index + 1) filename))]>
               (<[file_name := VStr url]> validated_data)),
         with_disk (<[path ++ "/" ++ filename := data]> (disk s)) s)
  | Some _ => raise AttributeError
  end.

Fixpoint store_files (fields : list (string * option string))
    (validated_data : gmap string value) : M (gmap string value) :=
  match fields with
  | [] => ret validated_data
  | field :: fields' =>
      do* validated_data := store_file field validated_data in
      store_files fields' validated_data
  end.

(** The loop of lines 90-93. *)
Fixpoint insert_categories (m : Z) (cs : list Category) : M unit :=
  match cs with
  | [] => ret tt
  | category :: cs' =>
      do* _ := insert_MaterialCategory m (c_id category) in
      insert_categories m cs'
  end.

(** The body of the [try] of lines 82-93. *)
Definition write_unit (request : Request) (validated_data : gmap string value)
  : M Z :=
  do* categories :=
    match validated_data !! "categories" with
    | Some v => ret v
    | None => raise (KeyError "categories")
    end in
  let validated_data := delete "categories" validated_data in
  do* insert := insert_Material validated_data in
  do* _ := insert_MaterialUser insert (u_id (user request)) in
  do* _ :=
    match categories with
    | VCategories cs => insert_categories insert cs
    | _ => raise TypeError
    end in
  ret insert.

(** Lines 80-98: the unit of work between [conn.begin()] and the
    [commit] or [rollback].  The result is the response of the [except]
    clause, or the [lastrowid] of the committed material. *)
Definition write_coordinator (request : Request)
    (validated_data : gmap string value) : M (response + Z) :=
  do* _ := begin in
  do* outcome :=
    try_except
      (do* insert := write_unit request validated_data in ret (inr insert))
      (fun e =>
         do* _ := rollback in
         ret (inl {| status := 200; content := ExceptionDetail e |})) in
  match outcome with
  | inl failure => ret (inl failure)
  | inr insert => do* _ := commit in ret (inr insert)
  end.

(** [MaterialsView.multipart_post] *)
Definition multipart_post (request : Request) : M response :=
  let data :=
    if can_read_body request then multipart_data request else ∅ in
  do* categories := lift (load_categories data) in
  let data := <["categories" := VJson categories]> data in
  do* d := read (fun d => d) in
  do* validated_data := lift (create_validate request d data) in
  do* validated_data := store_files file_fields validated_data in
  do* outcome := write_coordinator request validated_data in
  match outcome with
  | inl failure => ret failure
  | inr insert =>
      do* d := read (fun d => d) in
      let result := List.filter (fun r => Z.eqb (m_id r) insert) (materials d) in
      ret {| status := 201;
             content := Document (MaterialSerializer_to_json d <$> head result) |}
  end.

(** *** Soft delete *)

(** Modelled from the spec: [DetailView.get_queryset] of [utils.views] is
    missing.  The detail view addresses the row whose id is the [pk] of the
    route. *)
Definition get_queryset (request : Request) (row : Material) : bool :=
  sql_eq_int (m_id row) (pk request).

(** Lines 129-136: the file is removed from the disk when its path can be
    derived from the stored URL; a file that is not there is passed over. *)
Definition remove_file (material : Material) : M unit :=
  let index := find MEDIA_URL (m_file material) in
  if negb (Z.eqb index (-1)) then
    let path := BASE_DIR ++ "/" ++ slice_from index (m_file material) in
    fun s => (Ok tt, with_disk (delete path (disk s)) s)
  else ret tt.

(** [MaterialView.delete] *)
Definition MaterialView_delete (request : Request) : M response :=
  let queryset := get_queryset request in
  let user := user request in
  do* result := read (fun d => List.filter queryset (materials d)) in
  match head result with
  | None => raise AttributeError
  | Some material =>
      if negb (Z.eqb (m_owner material) (u_id user))
         && Z.ltb (u_role user) MODERATOR
      then raise PermissionDenied
      else
        do* _ := update_deleted queryset in
        do* _ :=
          delete_MaterialUser
            (fun r => Z.eqb (mu_material r) (m_id material)
                      && Z.eqb (mu_user r) (u_id user)) in
        do* _ := remove_file material in
        ret {| status := 204; content := NoBody |}
  end.

(** *** Collections *)

(** [add_material_to_user_collection] *)
Definition add_material_to_user_collection (request : Request) : M response :=
  do* _ :=
    try_except
      (insert_MaterialUser (sql_int_of (pk request)) (u_id (user request)))
      (fun e =>
         match e with
         | IntegrityError code =>
             if Z.eqb code 1062
             then raise (ValidationError [("detail", "Material is already added")])
             else raise e
         | _ => raise e
         end) in
  ret {| status := 200; content := NoBody |}.

(** [remove_material_from_user_collection] *)
Definition remove_material_from_user_collection (request : Request)
  : M response :=
  do* _ :=
    delete_MaterialUser
      (fun r => sql_eq_int (mu_material r) (pk request)
                && Z.eqb (mu_user r) (u_id (user request))) in
  ret {| status := 200; content := NoBody |}.

(** ** What the specification says of the predicate builder *)

(** The conjuncts of a predicate, left to right. *)
Fixpoint conjuncts (c : clause) : list clause :=
  match c with
  | And a b => conjuncts a ++ conjuncts b
  | _ => [c]
  end.

(** Whether a predicate reads [is_open] or [deleted] anywhere. *)
Fixpoint reads_visibility (c : clause) : bool :=
  match c with
  | IsOpenEq _ | DeletedEq _ => true
  | And a b | Or a b => reads_visibility a || reads_visibility b
  | _ => false
  end.

(** The visibility floor as a property of a row. *)
Definition visible (row : Material) : bool :=
  m_is_open row && negb (m_deleted row).

(** Whether the request names the requester as [owner]. *)
Definition requests_own (request : Request) : bool :=
  match get "owner" (query request) with
  | Some o =>
      match py_int o with
      | Some n => Z.eqb (u_id (user request)) n
      | None => false
      end
  | None => false
  end.

(** A dimension that is absent constrains nothing. *)
Definition dimension {A} (supplied : option A) (p : A -> bool) : bool :=
  match supplied with
  | Some a => p a
  | None => true
  end.

Definition in_category (d : db) (row : Material) (category : string) : bool :=
  existsb (Z.eqb (m_id row)) (category_rows d category).

Definition collected_by (d : db) (row : Material) (owner : string) : bool :=
  existsb (Z.eqb (m_id row)) (owner_rows d owner).

Definition text_matches (row : Material) (text : string) : bool :=
  sql_like (m_name row) ("%" ++ text ++ "%")
  || sql_like (m_author row) ("%" ++ text ++ "%").

(** The owner, category and type dimensions of a request: a conjunction
    over the supplied dimensions of the disjunction over their values. *)
Definition listing_predicate (request : Request) (d : db) (row : Material)
  : bool :=
  dimension (get "owner" (query request)) (collected_by d row)
  && dimension (getall "category" (query request)) (existsb (in_category d row))
  && dimension (getall "type" (query request))
       (existsb (sql_eq_str (m_type row))).

(** The composition rule as the specification words it, over the four
    dimensions owner, category, type and text. *)
Definition spec_predicate (request : Request) (d : db) (row : Material)
  : bool :=
  listing_predicate request d row
  && dimension (get "text" (query request)) (text_matches row).

(** A category dimension that resolves to no material id. *)
Definition resolves_to_nothing (d : db) (cats : list string) : bool :=
  forallb (fun category => bool_decide (category_rows d category = [])) cats.

(** ** Auxiliary definitions *)

(** [None] as an operand: it matches no row. *)
Definition any (o : option clause) (row : Material) : bool :=
  match o with
  | Some c => holds c row
  | None => false
  end.

(** The accumulated predicate after the ownership test of lines 192-196. *)
Definition initial_queryset (request : Request) : result (option clause) :=
  match get "owner" (query request) with
  | None => Ok (Some visibility)
  | Some o =>
      match py_int o with
      | None => Raise ValueError
      | Some n =>
          if negb (Z.eqb (u_id (user request)) n)
          then Ok (Some visibility)
          else Ok None
      end
  end.

(** The three optional dimensions applied to an accumulated predicate. *)
Definition refine (request : Request) (d : db) (queryset : option clause)
  : option clause :=
  let queryset :=
    match getall "category" (query request) with
    | Some cats => iand queryset (category_queryset d cats)
    | None => queryset
    end in
  let queryset :=
    match getall "type" (query request) with
    | Some types => iand queryset (type_queryset types)
    | None => queryset
    end in
  match get "owner" (query request) with
  | Some o => iand queryset (materials_of (owner_rows d o))
  | None => queryset
  end.

(** A predicate that has the two conjuncts of the visibility floor. *)
Definition floored (q : option clause) : Prop :=
  exists c, q = Some c
    /\ In (IsOpenEq true) (conjuncts c) /\ In (DeletedEq false) (conjuncts c).

(** Whether a possibly absent predicate reads [is_open] or [deleted]. *)
Definition reads_visibility_opt (q : option clause) : bool :=
  match q with
  | Some c => reads_visibility c
  | None => false
  end.

(** A statement leaves the snapshot and the disk alone. *)
Definition frame (s s' : state) : Prop :=
  snapshot s' = snapshot s /\ disk s' = disk s.

(** The tables after the three kinds of insert of one creation. *)
Definition committed (request : Request) (row : Material)
    (cs : list Category) (d : db) : db :=
  set_material_categories
    (material_categories d
     ++ map (fun c => {| mc_material := m_id row; mc_category := c_id c |}) cs)
    (set_material_users
       (material_users d
        ++ [{| mu_material := m_id row; mu_user := u_id (user request) |}])
       (set_materials (materials d ++ [row]) d)).

(** The state that a permitted soft delete of [material] leaves. *)
Definition soft_deleted (request : Request) (material : Material)
    (s : state) : state :=
  let d := current s in
  let d :=
    set_materials
      (map (fun r => if get_queryset request r then mark_deleted r else r)
         (materials d)) d in
  let d :=
    set_material_users
      (List.filter
         (fun r => negb (Z.eqb (mu_material r) (m_id material)
                         && Z.eqb (mu_user r) (u_id (user request))))
         (material_users d)) d in
  let index := find MEDIA_URL (m_file material) in
  {| current := d;
     snapshot := snapshot s;
     disk :=
       if negb (Z.eqb index (-1))
       then delete (BASE_DIR ++ "/" ++ slice_from index (m_file material))
              (disk s)
       else disk s |}.

(** The directory, the URL and the extension that the loop of lines 62-78
    derives for the upload of [MaterialSerializer]'s file field. *)
Definition upload_dir : string :=
  generate_path_to_file MEDIA_ROOT (Some "materials")
    (year now) (month now) (day now).

Definition url_of (filename : string) : string :=
  "/" ++ MEDIA_URL ++ "/" ++ ("materials" ++ "/")
  ++ pretty (year now) ++ "/" ++ pretty (month now) ++ "/"
  ++ pretty (day now) ++ "/" ++ filename.

Definition extension_of (filename : string) : string :=
  upper (slice_from (rfind "." filename + 1) filename).

(** Every junction row of [MaterialCategory] points to a material. *)
Definition links_resolve (d : db) : Prop :=
  forall mc, In mc (material_categories d) ->
    has_material d (mc_material mc) = true.

(** One predicate narrows another on a row. *)
Definition narrows (row : Material) (a b : option clause) : Prop :=
  b = None
  \/ exists ca cb, a = Some ca /\ b = Some cb
       /\ (holds ca row = true -> holds cb row = true).

(** The branch [else: queryset = ...] of lines 218-219 or 248-249 taken
    with a dimension that resolves to no material id: the accumulator stays
    [None] although a dimension was supplied.  It takes the requester's own
    collection, and either a category dimension without material or, with
    neither [category] nor [type], an empty collection.  (The branch of
    lines 233-234 always has a predicate to assign.) *)
Definition missed_case (request : Request) (d : db) : bool :=
  requests_own request
  && match getall "category" (query request) with
     | Some cats => resolves_to_nothing d cats
     | None =>
         match getall "type" (query request), get "owner" (query request) with
         | None, Some o => bool_decide (owner_rows d o = [])
         | _, _ => false
         end
     end.

(** Lines 48-78: what the creation view does before the unit of work.  It
    reads the field map, decodes [categories], validates, and stores the
    upload; the result is the validated data that the unit receives. *)
Definition prepare (request : Request) : M (gmap string value) :=
  let data :=
    if can_read_body request then multipart_data request else ∅ in
  do* categories := lift (load_categories data) in
  let data := <["categories" := VJson categories]> data in
  do* d := read (fun d => d) in
  do* validated_data := lift (create_validate request d data) in
  store_files file_fields validated_data.

(** The exception of the first statement of the unit of work that fails
    on the tables [d], in the order of lines 82-93: the [pop] of
    [categories], the insert of the material, the insert of the requester's
    link, the loop over the categories and its inserts.  [None] when no
    statement fails. *)
Definition unit_failure (request : Request) (validated_data : gmap string value)
    (d : db) : option exn :=
  match validated_data !! "categories" with
  | None => Some (KeyError "categories")
  | Some categories =>
      match Material_row d (delete "categories" validated_data) with
      | Raise e => Some e
      | Ok row =>
          if negb (has_user d (m_owner row)) then Some (IntegrityError 1452)
          else if has_material_user d (m_id row) (u_id (user request))
          then Some (IntegrityError 1062)
          else if negb (has_user d (u_id (user request)))
          then Some (IntegrityError 1452)
          else
            match categories with
            | VCategories cs =>
                if forallb (fun c => has_category d (c_id c)) cs then None
                else Some (IntegrityError 1452)
            | _ => Some TypeError
            end
      end
  end.

(** Unfolds the plumbing of [M]. *)
Ltac run :=
  unfold bindM, read, lift, set_current, ret, raise, try_except; simpl.

(** ** Properties of the predicate builder *)

Lemma holds_And a b row : holds (And a b) row = holds a row && holds b row.
Proof.
  unfold holds; simpl.
  destruct (eval a row) as [[]|], (eval b row) as [[]|]; reflexivity.
Qed.

Lemma holds_Or a b row : holds (Or a b) row = holds a row || holds b row.
Proof.
  unfold holds; simpl.
  destruct (eval a row) as [[]|], (eval b row) as [[]|]; reflexivity.
Qed.

Lemma holds_coerce o row : holds (coerce o) row = any o row.
Proof. destruct o; reflexivity. Qed.

Lemma any_ior a b row : any (ior a b) row = any a row || any b row.
Proof.
  destruct a as [c|]; simpl; [|reflexivity].
  unfold or_. rewrite holds_Or, holds_coerce. reflexivity.
Qed.

Lemma any_matches o row : o <> None -> matches o row = any o row.
Proof. destruct o; [reflexivity | congruence]. Qed.

Lemma matches_iand_Some c o row :
  matches (iand (Some c) o) row = holds c row && any o row.
Proof. simpl. unfold and_. rewrite holds_And, holds_coerce. reflexivity. Qed.

Lemma matches_iand q o row :
  q <> None \/ o <> None ->
  matches (iand q o) row = matches q row && any o row.
Proof.
  destruct q as [c|]; intros H.
  - apply matches_iand_Some.
  - simpl. apply any_matches. destruct H; congruence.
Qed.

Lemma iand_Some_not_None c o : iand (Some c) o <> None.
Proof. discriminate. Qed.

Lemma iand_not_None q o : q <> None -> iand q o <> None.
Proof. destruct q; [discriminate | congruence]. Qed.

Lemma ior_not_None_r a b : b <> None -> ior a b <> None.
Proof. destruct a; [discriminate | trivial]. Qed.

Lemma ior_not_None_l a b : a <> None -> ior a b <> None.
Proof. destruct a; [discriminate | congruence]. Qed.

Lemma existsb_ext {A} (f g : A -> bool) (l : list A) :
  (forall x, f x = g x) -> existsb f l = existsb g l.
Proof.
  intros H. induction l as [|x l IH]; simpl; [reflexivity|].
  rewrite H, IH. reflexivity.
Qed.

Section Folds.

Context {A : Type} (f : A -> option clause).

Lemma any_fold_ior (l : list A) acc row :
  any (fold_left (fun acc x => ior acc (f x)) l acc) row
  = any acc row || existsb (fun x => any (f x) row) l.
Proof.
  revert acc; induction l as [|x l IH]; intros acc; simpl.
  - rewrite orb_false_r. reflexivity.
  - rewrite IH, any_ior, orb_assoc. reflexivity.
Qed.

Lemma fold_ior_not_None (l : list A) acc :
  acc <> None -> fold_left (fun acc x => ior acc (f x)) l acc <> None.
Proof.
  revert acc; induction l as [|x l IH]; intros acc H; simpl; [exact H|].
  apply IH, ior_not_None_l, H.
Qed.

Lemma fold_ior_None (l : list A) :
  fold_left (fun acc x => ior acc (f x)) l None = None
  <-> Forall (fun x => f x = None) l.
Proof.
  induction l as [|x l IH]; simpl.
  - split; [constructor | reflexivity].
  - destruct (f x) as [c|] eqn:E.
    + split; intros H.
      * exfalso. revert H. apply fold_ior_not_None. discriminate.
      * inversion H; congruence.
    + rewrite IH. split; intros H.
      * constructor; assumption.
      * inversion H; assumption.
Qed.

End Folds.

Lemma any_materials_of ids row :
  any (materials_of ids) row = existsb (Z.eqb (m_id row)) ids.
Proof.
  unfold materials_of.
  rewrite (any_fold_ior (fun v => Some (IdEq v))). simpl.
  apply existsb_ext. intros v. unfold holds; simpl.
  destruct (m_id row =? v)%Z; reflexivity.
Qed.

Lemma materials_of_None ids : materials_of ids = None <-> ids = [].
Proof.
  unfold materials_of.
  rewrite (fold_ior_None (fun v => Some (IdEq v))).
  destruct ids as [|v ids]; split; intros H.
  - reflexivity.
  - constructor.
  - inversion H; discriminate.
  - discriminate.
Qed.

Lemma any_category_queryset d cats row :
  any (category_queryset d cats) row = existsb (in_category d row) cats.
Proof.
  unfold category_queryset.
  rewrite (any_fold_ior (fun c => materials_of (category_rows d c))). simpl.
  apply existsb_ext. intros c. apply any_materials_of.
Qed.

Lemma category_queryset_None d cats :
  category_queryset d cats = None <-> resolves_to_nothing d cats = true.
Proof.
  unfold category_queryset, resolves_to_nothing.
  rewrite (fold_ior_None (fun c => materials_of (category_rows d c))).
  rewrite forallb_forall, List.Forall_forall.
  split; intros H c Hc.
  - apply bool_decide_eq_true, materials_of_None, H, Hc.
  - apply materials_of_None. eapply bool_decide_eq_true, H, Hc.
Qed.

Lemma any_type_queryset types row :
  any (type_queryset types) row = existsb (sql_eq_str (m_type row)) types.
Proof.
  unfold type_queryset.
  rewrite (any_fold_ior (fun t => Some (TypeEq t))). simpl.
  apply existsb_ext. intros t. unfold holds; simpl.
  destruct (sql_eq_str (m_type row) t); reflexivity.
Qed.

Lemma getall_nonempty key q vs : getall key q = Some vs -> vs <> [].
Proof.
  unfold getall. destruct (values_of key q); [discriminate|].
  intros [= <-]. discriminate.
Qed.

Lemma type_queryset_not_None types : types <> [] -> type_queryset types <> None.
Proof.
  intros H Hn. unfold type_queryset in Hn.
  apply (fold_ior_None (fun t => Some (TypeEq t))) in Hn.
  destruct types; [congruence|]. inversion Hn; discriminate.
Qed.

Lemma get_queryset_by_user_refine request d :
  get_queryset_by_user request d
  = let* queryset := initial_queryset request in Ok (refine request d queryset).
Proof. reflexivity. Qed.

Lemma step_not_None {A} (q : option clause) (supplied : option A)
    (f : A -> option clause) :
  q <> None ->
  match supplied with Some a => iand q (f a) | None => q end <> None.
Proof. destruct supplied; [apply iand_not_None | trivial]. Qed.

Lemma step_matches {A} (q : option clause) (supplied : option A)
    (f : A -> option clause) (p : A -> bool) row :
  (forall a, any (f a) row = p a) ->
  q <> None \/ (forall a, supplied = Some a -> f a <> None) ->
  matches (match supplied with Some a => iand q (f a) | None => q end) row
  = matches q row && dimension supplied p.
Proof.
  intros Hp H. destruct supplied as [a|]; simpl.
  - rewrite <- Hp. apply matches_iand.
    destruct H as [H|H]; [left; exact H | right; apply H; reflexivity].
  - rewrite andb_true_r. reflexivity.
Qed.

Lemma refine_not_None request d q : q <> None -> refine request d q <> None.
Proof.
  intros H. unfold refine.
  apply (step_not_None _ _ (fun o => materials_of (owner_rows d o))).
  apply (step_not_None _ _ type_queryset).
  apply (step_not_None _ _ (category_queryset d)), H.
Qed.

Lemma iand_not_None_r q o : o <> None -> iand q o <> None.
Proof. destruct q; [discriminate | trivial]. Qed.

(** The predicate that [refine] builds selects the rows that the
    accumulated predicate selects and that satisfy every supplied
    dimension, as long as no dimension that resolves to nothing meets an
    empty accumulator. *)
Lemma refine_matches request d q row :
  q <> None
  \/ ((forall cats, getall "category" (query request) = Some cats ->
        resolves_to_nothing d cats = false)
      /\ (forall o, get "owner" (query request) = Some o ->
          owner_rows d o = [] ->
          getall "category" (query request) <> None
          \/ getall "type" (query request) <> None)) ->
  matches (refine request d q) row
  = matches q row && listing_predicate request d row.
Proof.
  intros H. unfold refine, listing_predicate.
  rewrite (step_matches _ _ (fun o => materials_of (owner_rows d o))
             (collected_by d row)).
  - rewrite (step_matches _ _ type_queryset (existsb (sql_eq_str (m_type row)))).
    + rewrite (step_matches _ _ (category_queryset d)
                 (existsb (in_category d row))).
      * destruct (matches q row), (dimension (get _ _) _),
          (dimension (getall "category" _) _), (dimension (getall "type" _) _);
          reflexivity.
      * intros cats. apply any_category_queryset.
      * destruct H as [H|[H _]]; [left; exact H | right].
        intros cats Hc Hn. apply category_queryset_None in Hn.
        rewrite (H cats Hc) in Hn. discriminate.
    + intros types. apply any_type_queryset.
    + right. intros types Ht.
      apply type_queryset_not_None, (getall_nonempty _ _ _ Ht).
  - intros o. apply any_materials_of.
  - destruct H as [H|[Hc Ho]].
    + left. apply (step_not_None _ _ type_queryset).
      apply (step_not_None _ _ (category_queryset d)), H.
    + destruct (getall "type" (query request)) as [types|] eqn:Ht.
      { left. apply iand_not_None_r.
        apply type_queryset_not_None, (getall_nonempty _ _ _ Ht). }
      destruct (getall "category" (query request)) as [cats|] eqn:Hcats.
      { left. apply iand_not_None_r. intros Hn.
        apply category_queryset_None in Hn.
        rewrite (Hc cats eq_refl) in Hn. discriminate. }
      right. intros o Hget Hn. apply materials_of_None in Hn.
      destruct (Ho o Hget Hn) as [E|E]; apply E; reflexivity.
Qed.

Lemma holds_visibility row : holds visibility row = visible row.
Proof.
  unfold visibility, visible. rewrite holds_And. unfold holds; simpl.
  destruct (m_is_open row), (m_deleted row); reflexivity.
Qed.

Lemma holds_conjuncts c row :
  holds c row = true -> forall f, In f (conjuncts c) -> holds f row = true.
Proof.
  induction c; simpl; intros H f Hf;
    try (destruct Hf as [<-|[]]; exact H).
  rewrite holds_And in H. apply andb_true_iff in H as [Ha Hb].
  apply in_app_or in Hf as [Hf|Hf]; auto.
Qed.

Lemma floored_iand q o : floored q -> floored (iand q o).
Proof.
  intros (c & -> & H1 & H2). exists (and_ c o). simpl.
  split; [reflexivity|]. split; apply in_or_app; left; assumption.
Qed.

Lemma floored_step {A} q (supplied : option A) (f : A -> option clause) :
  floored q ->
  floored (match supplied with Some a => iand q (f a) | None => q end).
Proof. destruct supplied; [apply floored_iand | trivial]. Qed.

Lemma floored_refine request d q : floored q -> floored (refine request d q).
Proof.
  intros H. unfold refine.
  apply (floored_step _ _ (fun o => materials_of (owner_rows d o))).
  apply (floored_step _ _ type_queryset).
  apply (floored_step _ _ (category_queryset d)), H.
Qed.

Lemma floored_visible q row :
  floored q -> matches q row = true ->
  m_is_open row = true /\ m_deleted row = false.
Proof.
  intros (c & -> & H1 & H2) H. simpl in H.
  pose proof (holds_conjuncts c row H _ H1) as Ho.
  pose proof (holds_conjuncts c row H _ H2) as Hd.
  unfold holds in Ho, Hd; simpl in Ho, Hd.
  destruct (m_is_open row), (m_deleted row); simpl in *; split; congruence.
Qed.

Lemma reads_visibility_ior a b :
  reads_visibility_opt (ior a b)
  = reads_visibility_opt a || reads_visibility_opt b.
Proof. destruct a, b; simpl; rewrite ?orb_false_r; reflexivity. Qed.

Lemma reads_visibility_iand a b :
  reads_visibility_opt (iand a b)
  = reads_visibility_opt a || reads_visibility_opt b.
Proof. destruct a, b; simpl; rewrite ?orb_false_r; reflexivity. Qed.

Lemma reads_visibility_fold {A} (f : A -> option clause) (l : list A) acc :
  (forall x, reads_visibility_opt (f x) = false) ->
  reads_visibility_opt (fold_left (fun acc x => ior acc (f x)) l acc)
  = reads_visibility_opt acc.
Proof.
  intros H. revert acc; induction l as [|x l IH]; intros acc; simpl.
  - reflexivity.
  - rewrite IH, reads_visibility_ior, H, orb_false_r. reflexivity.
Qed.

Lemma reads_visibility_materials_of ids :
  reads_visibility_opt (materials_of ids) = false.
Proof.
  unfold materials_of.
  apply (reads_visibility_fold (fun v => Some (IdEq v))). reflexivity.
Qed.

Lemma reads_visibility_category_queryset d cats :
  reads_visibility_opt (category_queryset d cats) = false.
Proof.
  unfold category_queryset.
  apply (reads_visibility_fold (fun c => materials_of (category_rows d c))).
  intros c. apply reads_visibility_materials_of.
Qed.

Lemma reads_visibility_type_queryset types :
  reads_visibility_opt (type_queryset types) = false.
Proof.
  unfold type_queryset.
  apply (reads_visibility_fold (fun t => Some (TypeEq t))). reflexivity.
Qed.

Lemma reads_visibility_refine request d q :
  reads_visibility_opt (refine request d q) = reads_visibility_opt q.
Proof.
  unfold refine.
  destruct (getall "category" _), (getall "type" _), (get "owner" _);
    rewrite ?reads_visibility_iand, ?reads_visibility_materials_of,
      ?reads_visibility_type_queryset, ?reads_visibility_category_queryset,
      ?orb_false_r; reflexivity.
Qed.

Lemma resolves_to_nothing_in_category d cats row :
  resolves_to_nothing d cats = true -> existsb (in_category d row) cats = false.
Proof.
  unfold resolves_to_nothing. intros H.
  induction cats as [|c cats IH]; simpl in *; [reflexivity|].
  apply andb_true_iff in H as [Hc H]. apply bool_decide_eq_true in Hc.
  unfold in_category at 1. rewrite Hc. simpl. apply IH, H.
Qed.

Lemma get_without k key q : k <> key -> get k (without key q) = get k q.
Proof.
  intros Hk. induction q as [|[k' v] q IH]; simpl; [reflexivity|].
  destruct (String.eqb_spec k' key) as [->|Hne]; simpl.
  - destruct (String.eqb_spec key k); [congruence | exact IH].
  - destruct (String.eqb_spec k' k); [reflexivity | exact IH].
Qed.

Lemma values_of_without k key q :
  values_of k (without key q)
  = if String.eqb k key then [] else values_of k q.
Proof.
  induction q as [|[k' v] q IH]; simpl.
  - destruct (String.eqb k key); reflexivity.
  - destruct (String.eqb_spec k' key) as [->|Hne]; simpl.
    + rewrite IH. destruct (String.eqb_spec key k) as [->|Hk].
      * rewrite String.eqb_refl. reflexivity.
      * destruct (String.eqb_spec k key); [congruence | reflexivity].
    + destruct (String.eqb_spec k' k) as [->|Hk]; rewrite IH.
      * destruct (String.eqb_spec k key); [congruence | reflexivity].
      * reflexivity.
Qed.

(** The missed case of lines 216-219.  When the requester lists their own
    collection, a category dimension that resolves to no material id is
    dropped: the predicate is the one of the request without any
    [category] parameter. *)
Lemma empty_category_dropped request d cats :
  requests_own request = true ->
  getall "category" (query request) = Some cats ->
  resolves_to_nothing d cats = true ->
  get_queryset_by_user request d
  = get_queryset_by_user
      (with_query (without "category" (query request)) request) d.
Proof.
  intros Hown Hc He. unfold get_queryset_by_user, requests_own in *. simpl.
  rewrite get_without by discriminate.
  destruct (get "owner" (query request)) as [o|]; [|discriminate].
  destruct (py_int o) as [n|]; [|reflexivity].
  rewrite Hown. simpl. rewrite Hc.
  apply category_queryset_None in He. rewrite He. simpl.
  unfold getall. rewrite !values_of_without. simpl. reflexivity.
Qed.

(** With the visibility floor in place, a category dimension that resolves
    to no material id selects no row. *)
Lemma empty_category_under_floor request d cats :
  initial_queryset request = Ok (Some visibility) ->
  getall "category" (query request) = Some cats ->
  resolves_to_nothing d cats = true ->
  exists q, get_queryset_by_user request d = Ok q
    /\ forall row, matches q row = false.
Proof.
  intros Hq Hc He. rewrite get_queryset_by_user_refine, Hq. simpl.
  eexists; split; [reflexivity|]. intros row.
  rewrite refine_matches by (left; discriminate).
  unfold listing_predicate. rewrite Hc. simpl.
  rewrite (resolves_to_nothing_in_category _ _ _ He).
  rewrite andb_false_r. simpl. apply andb_false_r.
Qed.

(** C3.  When the [owner] parameter is absent or is another user's id, the
    predicate that [get_queryset_by_user] builds has the conjuncts
    [is_open = true] and [deleted = false], so that no selected row is
    closed or deleted; when [owner] is the requester's id, the predicate
    reads neither column. *)
Theorem visibility_floor (request : Request) (d : db) :
  (get "owner" (query request) = None
   \/ (exists o n, get "owner" (query request) = Some o
         /\ py_int o = Some n /\ n <> u_id (user request)) ->
   exists c, get_queryset_by_user request d = Ok (Some c)
     /\ In (IsOpenEq true) (conjuncts c)
     /\ In (DeletedEq false) (conjuncts c)
     /\ forall row, In row (select_where (Some c) d) ->
          m_is_open row = true /\ m_deleted row = false)
  /\ ((exists o, get "owner" (query request) = Some o
         /\ py_int o = Some (u_id (user request))) ->
      exists q, get_queryset_by_user request d = Ok q
        /\ reads_visibility_opt q = false).
Proof.
  split.
  - intros H.
    assert (Hq : initial_queryset request = Ok (Some visibility)).
    { unfold initial_queryset.
      destruct H as [-> | (o & n & -> & -> & Hn)]; [reflexivity|].
      destruct (Z.eqb_spec (u_id (user request)) n); [congruence | reflexivity]. }
    assert (Hf : floored (refine request d (Some visibility))).
    { apply floored_refine. exists visibility.
      split; [reflexivity|]. simpl. auto. }
    destruct Hf as (c & Hc & H1 & H2).
    exists c. rewrite get_queryset_by_user_refine, Hq. simpl. rewrite Hc.
    split; [reflexivity|]. split; [exact H1|]. split; [exact H2|].
    intros row Hr. apply filter_In in Hr as [_ Hr].
    apply (floored_visible (Some c) row); [exists c; auto | exact Hr].
  - intros (o & Ho & Hn).
    rewrite get_queryset_by_user_refine. unfold initial_queryset.
    rewrite Ho, Hn, Z.eqb_refl. simpl.
    eexists; split; [reflexivity|].
    apply reads_visibility_refine.
Qed.

(** X19.  For a request whose [owner], when supplied, is a number and that
    does not meet the missed case of the accumulator, the predicate selects
    the rows that satisfy every supplied dimension among owner, category and
    type, each repeated dimension as the disjunction of its values, together
    with the visibility floor unless [owner] is the requester. *)
Theorem composition_rule (request : Request) (d : db) :
  (forall o, get "owner" (query request) = Some o -> py_int o <> None) ->
  missed_case request d = false ->
  exists q, get_queryset_by_user request d = Ok q
    /\ forall row,
         matches q row
         = (requests_own request || visible row)
           && listing_predicate request d row.
Proof.
  intros Hint Hmiss. rewrite get_queryset_by_user_refine.
  unfold missed_case in Hmiss.
  unfold initial_queryset, requests_own in *.
  destruct (get "owner" (query request)) as [o|] eqn:Ho.
  - destruct (py_int o) as [n|] eqn:Hn; [|exfalso; exact (Hint o eq_refl Hn)].
    destruct (u_id (user request) =? n)%Z eqn:E; simpl.
    + eexists; split; [reflexivity|]. intros row.
      rewrite refine_matches; [reflexivity|]. right. simpl in Hmiss.
      rewrite Ho.
      destruct (getall "category" (query request)) as [cats|].
      * split; [intros ? [= <-]; exact Hmiss|].
        intros ? _ _. left. discriminate.
      * split; [discriminate|]. intros ? [= <-] Hrows.
        destruct (getall "type" (query request)); [right; discriminate|].
        rewrite bool_decide_eq_false in Hmiss. contradiction.
    + eexists; split; [reflexivity|]. intros row.
      rewrite refine_matches by (left; discriminate).
      simpl. rewrite holds_visibility. reflexivity.
  - simpl. eexists; split; [reflexivity|]. intros row.
    rewrite refine_matches by (left; discriminate).
    simpl. rewrite holds_visibility. reflexivity.
Qed.

(** X3.  The search view adds the text dimension to the predicate of the
    listing. *)
Lemma search_adds_text request d text q :
  get "text" (query request) = Some text ->
  get_queryset_by_user request d = Ok (Some q) ->
  search_materials request d
  = Ok {| status := 200;
          content :=
            Documents
              (map (MaterialSerializer_to_json d)
                 (page_paginator request
                    (List.filter
                       (fun row => holds q row && text_matches row text)
                       (materials d)))) |}.
Proof.
  intros Ht Hq. unfold search_materials. rewrite Ht, Hq. simpl.
  do 5 f_equal. apply filter_ext. intros row.
  unfold and_. rewrite holds_And. simpl. rewrite holds_Or.
  unfold text_matches, holds; simpl.
  destruct (sql_like (m_name row) _), (sql_like (m_author row) _); reflexivity.
Qed.

(** C5, amended.  A search request without a [text] parameter fails with
    the validation error keyed on [text]; a request that has the parameter,
    empty or not, never fails with a validation error. *)
Theorem search_requires_text (request : Request) (d : db) :
  (get "text" (query request) = None ->
   search_materials request d
   = Raise (ValidationError [("text", "This query parameters is required")]))
  /\ (forall text, get "text" (query request) = Some text ->
      forall errors, search_materials request d <> Raise (ValidationError errors)).
Proof.
  split.
  - intros H. unfold search_materials. rewrite H. reflexivity.
  - intros text H errors. unfold search_materials. rewrite H.
    rewrite get_queryset_by_user_refine. unfold initial_queryset.
    destruct (get "owner" (query request)) as [o|]; simpl.
    + destruct (py_int o) as [n|]; simpl; [|discriminate].
      destruct (negb _); simpl;
        destruct (refine request d _); discriminate.
    + destruct (refine request d _); discriminate.
Qed.

(** ** Properties of the write path *)

Lemma frame_refl s : frame s s.
Proof. split; reflexivity. Qed.

Lemma frame_trans s1 s2 s3 : frame s1 s2 -> frame s2 s3 -> frame s1 s3.
Proof. intros [H1 H2] [H3 H4]. split; congruence. Qed.

Lemma frame_with_current d s : frame s (with_current d s).
Proof. split; reflexivity. Qed.

Lemma insert_Material_run vs s :
  match insert_Material vs s with
  | (Ok id, s') =>
      exists row, Material_row (current s) vs = Ok row
        /\ id = m_id row
        /\ s' = with_current (set_materials (materials (current s) ++ [row])
                                (current s)) s
  | (Raise e, s') => s' = s
  end.
Proof.
  unfold insert_Material. run.
  destruct (Material_row (current s) vs) as [row|e]; [|reflexivity].
  destruct (has_user _ _); simpl; [|reflexivity].
  exists row. auto.
Qed.

Lemma insert_MaterialUser_run m u s :
  match insert_MaterialUser m u s with
  | (Ok _, s') =>
      s' = with_current
             (set_material_users
                (material_users (current s)
                 ++ [{| mu_material := m; mu_user := u |}]) (current s)) s
  | (Raise e, s') => s' = s
  end.
Proof.
  unfold insert_MaterialUser. run.
  destruct (has_material_user _ _ _); [reflexivity|].
  destruct (has_material _ _ && has_user _ _); reflexivity.
Qed.

Lemma insert_MaterialCategory_run m c s :
  match insert_MaterialCategory m c s with
  | (Ok _, s') =>
      s' = with_current
             (set_material_categories
                (material_categories (current s)
                 ++ [{| mc_material := m; mc_category := c |}]) (current s)) s
  | (Raise e, s') => s' = s
  end.
Proof.
  unfold insert_MaterialCategory. run.
  destruct (has_material _ _ && has_category _ _); reflexivity.
Qed.

Lemma set_material_categories_id d :
  set_material_categories (material_categories d) d = d.
Proof. destruct d; reflexivity. Qed.

Lemma insert_categories_run m cs s :
  match insert_categories m cs s with
  | (Ok _, s') =>
      current s'
      = set_material_categories
          (material_categories (current s)
           ++ map (fun c => {| mc_material := m; mc_category := c_id c |}) cs)
          (current s)
      /\ frame s s'
  | (Raise e, s') => frame s s'
  end.
Proof.
  revert s; induction cs as [|c cs IH]; intros s; simpl.
  - unfold ret. rewrite app_nil_r, set_material_categories_id.
    split; [reflexivity | apply frame_refl].
  - unfold bindM.
    pose proof (insert_MaterialCategory_run m (c_id c) s) as H.
    destruct (insert_MaterialCategory m (c_id c) s) as [[[]|e] s1].
    + subst s1. specialize (IH (with_current
        (set_material_categories
           (material_categories (current s)
            ++ [{| mc_material := m; mc_category := c_id c |}]) (current s)) s)).
      destruct (insert_categories m cs _) as [[[]|e] s2].
      * destruct IH as [IH Hf]. split; [|exact Hf].
        rewrite IH. simpl. rewrite <- app_assoc. reflexivity.
      * exact IH.
    + subst s1. apply frame_refl.
Qed.

Lemma write_unit_run request vd s :
  match write_unit request vd s with
  | (Ok id, s') =>
      exists row cs,
        vd !! "categories" = Some (VCategories cs)
        /\ Material_row (current s) (delete "categories" vd) = Ok row
        /\ id = m_id row
        /\ current s' = committed request row cs (current s)
        /\ frame s s'
  | (Raise e, s') => frame s s'
  end.
Proof.
  unfold write_unit. unfold bindM at 1.
  destruct (vd !! "categories") as [v|] eqn:Hv; [|apply frame_refl].
  unfold ret at 1. unfold bindM at 1.
  pose proof (insert_Material_run (delete "categories" vd) s) as H1.
  destruct (insert_Material _ s) as [[id|e] s1];
    [|subst s1; apply frame_refl].
  destruct H1 as (row & Hrow & -> & ->).
  unfold bindM at 1.
  pose proof (insert_MaterialUser_run (m_id row) (u_id (user request))
                (with_current (set_materials (materials (current s) ++ [row])
                   (current s)) s)) as H2.
  destruct (insert_MaterialUser _ _ _) as [[[]|e] s2];
    [|subst s2; apply frame_with_current].
  subst s2. unfold bindM at 1.
  destruct v as [| | | | |cs]; try (unfold raise; split; reflexivity).
  pose proof (insert_categories_run (m_id row) cs
                (with_current
                   (set_material_users
                      (material_users
                         (current
                            (with_current
                               (set_materials (materials (current s) ++ [row])
                                  (current s)) s))
                       ++ [{| mu_material := m_id row;
                              mu_user := u_id (user request) |}])
                      (current
                         (with_current
                            (set_materials (materials (current s) ++ [row])
                               (current s)) s)))
                   (with_current
                      (set_materials (materials (current s) ++ [row])
                         (current s)) s))) as H3.
  destruct (insert_categories _ _ _) as [[[]|e] s3].
  - destruct H3 as [H3 Hf]. unfold ret. exists row, cs.
    repeat split; auto; apply Hf.
  - exact H3.
Qed.

(** The unit of work either commits the three kinds of row, or leaves the
    tables as they were and returns the exception as a response. *)
Lemma write_coordinator_run request vd s :
  match write_coordinator request vd s with
  | (Ok (inr id), s') =>
      exists row cs,
        vd !! "categories" = Some (VCategories cs)
        /\ Material_row (current s) (delete "categories" vd) = Ok row
        /\ id = m_id row
        /\ current s' = committed request row cs (current s)
        /\ snapshot s' = None /\ disk s' = disk s
  | (Ok (inl failure), s') =>
      exists e s1 s2,
        current s1 = current s
        /\ write_unit request vd s1 = (Raise e, s2)
        /\ failure = {| status := 200; content := ExceptionDetail e |}
        /\ current s' = current s
        /\ snapshot s' = None /\ disk s' = disk s
  | (Raise _, _) => False
  end.
Proof.
  unfold write_coordinator, begin. unfold bindM at 1.
  set (s1 := {| current := current s; snapshot := Some (current s);
                disk := disk s |}).
  unfold bindM at 1, try_except. unfold bindM at 1.
  pose proof (write_unit_run request vd s1) as H.
  destruct (write_unit request vd s1) as [[id|e] s2] eqn:Hw.
  - destruct H as (row & cs & Hc & Hrow & -> & Hcur & Hs & Hd).
    unfold ret at 1. unfold bindM, commit, ret. simpl.
    exists row, cs. repeat split; auto.
  - destruct H as [Hs Hd]. unfold bindM, rollback, ret. simpl.
    exists e, s1, s2. rewrite Hs. simpl. repeat split; auto.
Qed.

Lemma store_file_current field vd s :
  current (snd (store_file field vd s)) = current s.
Proof.
  unfold store_file. destruct field as [file_name upload_to].
  destruct (vd !! file_name) as [[]|]; reflexivity.
Qed.

Lemma store_files_current fields vd s :
  current (snd (store_files fields vd s)) = current s.
Proof.
  revert vd s; induction fields as [|field fields IH]; intros vd s; simpl.
  - reflexivity.
  - unfold bindM. pose proof (store_file_current field vd s) as H.
    destruct (store_file field vd s) as [[vd'|e] s1]; simpl in H.
    + rewrite IH. exact H.
    + exact H.
Qed.

(** The files of [file_fields] leave the [owner] and [categories] entries
    of the validated data as they are. *)
Lemma store_files_keeps key vd vd' s s' :
  key <> "file" -> key <> "extension" ->
  store_files file_fields vd s = (Ok vd', s') ->
  vd' !! key = vd !! key.
Proof.
  intros Hf He. unfold file_fields, store_files, bindM, store_file.
  destruct (vd !! "file") as [[]|]; unfold raise, ret; try discriminate.
  intros [= <- _].
  rewrite lookup_insert_ne by congruence.
  rewrite lookup_insert_ne by congruence. reflexivity.
Qed.

Lemma is_valid_owner request d method partial data vd :
  MaterialSerializer_is_valid request d method partial data = Ok vd ->
  vd !! "owner" = Some (VInt (u_id (user request))).
Proof.
  unfold MaterialSerializer_is_valid, bind.
  destruct (base_is_valid d method partial data); [|discriminate].
  intros [= <-]. apply lookup_insert_eq.
Qed.

Lemma Material_row_owner d vs row :
  Material_row d vs = Ok row ->
  vs !! "owner" = Some (VInt (m_owner row)) /\ m_id row = lastrowid d.
Proof.
  unfold Material_row, bind, str_column.
  destruct (negb _); [discriminate|].
  repeat match goal with
  | |- context [match vs !! ?k with _ => _ end] =>
      destruct (vs !! k) as [[]|]; try discriminate
  end;
  intros [= <-]; simpl; split; reflexivity.
Qed.

(** What a creation request leaves behind, by the kind of its outcome. *)
Lemma multipart_post_run request s :
  match multipart_post request s with
  | (Ok response, s') =>
      (exists e s1 s2 vd,
          current s1 = current s
          /\ write_unit request vd s1 = (Raise e, s2)
          /\ response = {| status := 200; content := ExceptionDetail e |}
          /\ current s' = current s)
      \/ (exists row cs,
            status response = 201%Z
            /\ m_owner row = u_id (user request)
            /\ m_id row = lastrowid (current s)
            /\ current s' = committed request row cs (current s))
  | (Raise e, s') => current s' = current s
  end.
Proof.
  unfold multipart_post. unfold bindM at 1, lift at 1.
  destruct (load_categories _) as [j|e]; [|reflexivity].
  unfold bindM at 1, read at 1. unfold bindM at 1, lift at 1.
  destruct (create_validate request (current s) _) as [vd|e] eqn:Hv;
    [|reflexivity].
  unfold bindM at 1.
  pose proof (store_files_current file_fields vd s) as Hcur.
  destruct (store_files file_fields vd s) as [[vd'|e] s1] eqn:Hs;
    simpl in Hcur; [|exact Hcur].
  unfold bindM at 1.
  pose proof (write_coordinator_run request vd' s1) as H.
  destruct (write_coordinator request vd' s1) as [[[failure|id]|e] s2];
    [| |contradiction].
  - destruct H as (e & s3 & s4 & H3 & Hw & -> & Hc & _).
    unfold ret. left. exists e, s3, s4, vd'.
    repeat split; congruence.
  - destruct H as (row & cs & Hc & Hrow & -> & Hcur' & _).
    unfold bindM, read, ret. simpl. right. exists row, cs.
    apply Material_row_owner in Hrow as [Ho Hid].
    rewrite lookup_delete_ne in Ho by discriminate.
    rewrite (store_files_keeps "owner" vd vd' s s1) in Ho
      by (discriminate || exact Hs).
    rewrite (is_valid_owner _ _ _ _ _ _ Hv) in Ho.
    repeat split; try congruence.
Qed.

Lemma prepare_run request s :
  match prepare request s with
  | (Ok vd, s1) => current s1 = current s /\ snapshot s1 = snapshot s
  | (Raise e, s1) => s1 = s
  end.
Proof.
  unfold prepare. unfold bindM at 1, lift at 1.
  destruct (load_categories _) as [j|e]; [|reflexivity].
  unfold bindM at 1, read at 1. unfold bindM at 1, lift at 1.
  destruct (create_validate request (current s) _) as [vd|e]; [|reflexivity].
  unfold file_fields, store_files, bindM, store_file.
  destruct (vd !! "file") as [[]|]; unfold raise, ret; try reflexivity.
  split; reflexivity.
Qed.

Lemma multipart_post_prepare request s :
  multipart_post request s
  = match prepare request s with
    | (Ok vd, s1) =>
        match write_coordinator request vd s1 with
        | (Ok (inl failure), s2) => (Ok failure, s2)
        | (Ok (inr insert), s2) =>
            (Ok {| status := 201;
                   content :=
                     Document
                       (MaterialSerializer_to_json (current s2)
                          <$> head
                                (List.filter
                                   (fun r => Z.eqb (m_id r) insert)
                                   (materials (current s2)))) |}, s2)
        | (Raise e, s2) => (Raise e, s2)
        end
    | (Raise e, s1) => (Raise e, s1)
    end.
Proof.
  unfold multipart_post, prepare, bindM, lift, read, ret.
  destruct (load_categories _) as [j|e]; [|reflexivity].
  destruct (create_validate request (current s) _) as [vd|e]; [|reflexivity].
  destruct (store_files file_fields vd s) as [[vd'|e] s1]; [|reflexivity].
  destruct (write_coordinator request vd' s1) as [[[failure|insert]|e] s2];
    reflexivity.
Qed.

Lemma has_material_appended d row :
  has_material (set_materials (materials d ++ [row]) d) (m_id row) = true.
Proof.
  unfold has_material. simpl. rewrite existsb_app. simpl.
  rewrite Z.eqb_refl, orb_true_r. reflexivity.
Qed.

Lemma has_material_user_set_materials ms d m u :
  has_material_user (set_materials ms d) m u = has_material_user d m u.
Proof. reflexivity. Qed.

Lemma has_user_set_materials ms d u :
  has_user (set_materials ms d) u = has_user d u.
Proof. reflexivity. Qed.

Lemma insert_categories_outcome m cs s :
  has_material (current s) m = true ->
  if forallb (fun c => has_category (current s) (c_id c)) cs
  then exists s', insert_categories m cs s = (Ok tt, s')
  else exists s', insert_categories m cs s = (Raise (IntegrityError 1452), s').
Proof.
  revert s; induction cs as [|c cs IH]; intros s Hm; simpl.
  - eexists. reflexivity.
  - unfold bindM, insert_MaterialCategory at 1 2. run. rewrite Hm. simpl.
    destruct (has_category (current s) (c_id c)) eqn:Hc; simpl.
    + match goal with
      | |- context [insert_categories m cs ?st] => exact (IH st Hm)
      end.
    + eexists. reflexivity.
Qed.

(** The unit of work fails exactly when one of its statements does, and
    with the exception of the first that does. *)
Lemma write_unit_outcome request vd s :
  match unit_failure request vd (current s) with
  | Some e => exists s', write_unit request vd s = (Raise e, s')
  | None => exists insert s', write_unit request vd s = (Ok insert, s')
  end.
Proof.
  unfold unit_failure, write_unit. unfold bindM at 1 3.
  destruct (vd !! "categories") as [v|]; [|eexists; reflexivity].
  unfold ret at 1 3. unfold bindM at 1 3, insert_Material. run.
  destruct (Material_row (current s) (delete "categories" vd)) as [row|e];
    [|eexists; reflexivity].
  destruct (has_user (current s) (m_owner row)) eqn:Hu; simpl;
    [|eexists; reflexivity].
  unfold insert_MaterialUser. run.
  rewrite has_material_user_set_materials, has_user_set_materials,
    has_material_appended.
  destruct (has_material_user (current s) (m_id row) (u_id (user request)));
    [eexists; reflexivity|].
  destruct (has_user (current s) (u_id (user request))) eqn:Hr; simpl;
    [|eexists; reflexivity].
  destruct v as [| | | | |cs]; try (eexists; reflexivity).
  match goal with
  | |- context [insert_categories ?m cs ?st] =>
      pose proof (insert_categories_outcome m cs st) as H
  end.
  simpl in H. specialize (H (has_material_appended _ _)).
  unfold has_category in *. simpl in *.
  destruct (forallb _ cs); destruct H as [s' H]; rewrite H.
  - eexists _, _. reflexivity.
  - eexists. reflexivity.
Qed.

Lemma write_coordinator_outcome request vd s :
  match unit_failure request vd (current s) with
  | Some e =>
      exists s',
        write_coordinator request vd s
        = (Ok (inl {| status := 200; content := ExceptionDetail e |}), s')
        /\ current s' = current s
  | None =>
      exists row cs s',
        vd !! "categories" = Some (VCategories cs)
        /\ Material_row (current s) (delete "categories" vd) = Ok row
        /\ write_coordinator request vd s = (Ok (inr (m_id row)), s')
        /\ current s' = committed request row cs (current s)
  end.
Proof.
  pose (s1 := {| current := current s; snapshot := Some (current s);
                 disk := disk s |}).
  pose proof (write_unit_outcome request vd s1) as O.
  pose proof (write_unit_run request vd s1) as R.
  change (current s1) with (current s) in O, R.
  unfold write_coordinator, begin, try_except, bindM.
  change {| current := current s; snapshot := Some (current s);
            disk := disk s |} with s1.
  destruct (unit_failure request vd (current s)) as [e|].
  - destruct O as [s2 Hw]. rewrite Hw in *. destruct R as [Hs _].
    unfold rollback, ret. simpl. eexists. split; [reflexivity|].
    simpl. rewrite Hs. reflexivity.
  - destruct O as (insert & s2 & Hw). rewrite Hw in *.
    destruct R as (row & cs & Hc & Hrow & -> & Hcur & _).
    unfold commit, ret. simpl.
    exists row, cs. eexists.
    split; [exact Hc|]. split; [exact Hrow|]. split; [reflexivity|].
    exact Hcur.
Qed.

(** C4.  A creation request that passes the preparation runs the unit of
    work on the validated data.  If a statement of the unit fails, the
    answer carries the exception of the first one that fails and the tables
    are those before the request.  If none fails, the answer is 201 and the
    tables have gained the material built from the validated data, the
    requester's link to it, and one link per validated category, in order,
    and nothing else.  A request that fails the preparation raises and
    leaves the state as it was. *)
Theorem write_unit_atomic (request : Request) (s : state) :
  match prepare request s with
  | (Raise e, _) => multipart_post request s = (Raise e, s)
  | (Ok validated_data, _) =>
      match unit_failure request validated_data (current s) with
      | Some e =>
          exists s',
            multipart_post request s
            = (Ok {| status := 200; content := ExceptionDetail e |}, s')
            /\ current s' = current s
      | None =>
          exists row cs response s',
            validated_data !! "categories" = Some (VCategories cs)
            /\ Material_row (current s) (delete "categories" validated_data)
               = Ok row
            /\ multipart_post request s = (Ok response, s')
            /\ status response = 201%Z
            /\ users (current s') = users (current s)
            /\ categories (current s') = categories (current s)
            /\ materials (current s') = (materials (current s) ++ [row])%list
            /\ material_users (current s')
               = (material_users (current s)
                  ++ [{| mu_material := m_id row;
                         mu_user := u_id (user request) |}])%list
            /\ material_categories (current s')
               = (material_categories (current s)
                  ++ map (fun c => {| mc_material := m_id row;
                                      mc_category := c_id c |}) cs)%list
      end
  end.
Proof.
  rewrite multipart_post_prepare.
  pose proof (prepare_run request s) as P.
  destruct (prepare request s) as [[vd|e] s1]; [|rewrite P; reflexivity].
  destruct P as [Hcur _].
  pose proof (write_coordinator_outcome request vd s1) as O.
  rewrite Hcur in O.
  destruct (unit_failure request vd (current s)) as [e|].
  - destruct O as (s' & -> & Hc). exists s'. split; [reflexivity | exact Hc].
  - destruct O as (row & cs & s' & Hcs & Hrow & -> & Hc).
    exists row, cs. eexists _, s'.
    split; [exact Hcs|]. split; [exact Hrow|]. split; [reflexivity|].
    rewrite Hc. repeat split.
Qed.

(** C8.  Two creation requests of the same user, whatever their payloads,
    store a material whose owner is that user's id. *)
Theorem owner_is_requester (request1 request2 : Request) (s1 s2 : state)
    (response1 response2 : response) (s1' s2' : state) :
  user request1 = user request2 ->
  multipart_post request1 s1 = (Ok response1, s1') ->
  status response1 = 201%Z ->
  multipart_post request2 s2 = (Ok response2, s2') ->
  status response2 = 201%Z ->
  exists row1 row2,
    materials (current s1') = (materials (current s1) ++ [row1])%list
    /\ materials (current s2') = (materials (current s2) ++ [row2])%list
    /\ m_owner row1 = u_id (user request1)
    /\ m_owner row2 = m_owner row1.
Proof.
  intros Hu H1 Hs1 H2 Hs2.
  pose proof (multipart_post_run request1 s1) as R1.
  pose proof (multipart_post_run request2 s2) as R2.
  rewrite H1 in R1. rewrite H2 in R2.
  destruct R1 as [(e & ? & ? & ? & _ & _ & -> & _)|(row1 & cs1 & _ & Ho1 & _ & Hc1)];
    [discriminate|].
  destruct R2 as [(e & ? & ? & ? & _ & _ & -> & _)|(row2 & cs2 & _ & Ho2 & _ & Hc2)];
    [discriminate|].
  exists row1, row2. rewrite Hc1, Hc2. simpl.
  repeat split; congruence.
Qed.

(** A request without a readable body is not validated: reading the
    [categories] entry of the empty field map raises [KeyError]. *)
Lemma multipart_post_without_body request s :
  can_read_body request = false ->
  multipart_post request s = (Raise (KeyError "categories"), s).
Proof.
  intros H. unfold multipart_post. rewrite H. reflexivity.
Qed.

(** A body without a [categories] field fares the same. *)
Lemma multipart_post_without_categories request s :
  can_read_body request = true ->
  multipart_data request !! "categories" = None ->
  multipart_post request s = (Raise (KeyError "categories"), s).
Proof.
  intros H Hc. unfold multipart_post, load_categories. rewrite H, Hc.
  reflexivity.
Qed.

(** A [categories] field that is not JSON is rejected under its name. *)
Lemma multipart_post_bad_json request s text :
  can_read_body request = true ->
  multipart_data request !! "categories" = Some (VStr text) ->
  text <> "" ->
  json_loads text = None ->
  multipart_post request s
  = (Raise (ValidationError [("categories", "JSON decode error")]), s).
Proof.
  intros H Hc Ht Hj. unfold multipart_post, load_categories.
  rewrite H, Hc. simpl.
  destruct (String.eqb_spec text ""); [contradiction|]. simpl.
  rewrite Hj. reflexivity.
Qed.

(** C9.  Adding a material that the requester's collection already has
    fails with the validation error of the uniqueness conflict and changes
    nothing; adding one that it does not have never fails with a
    validation error. *)
Theorem add_twice_conflicts (request : Request) (s : state) :
  (has_material_user (current s) (sql_int_of (pk request))
     (u_id (user request)) = true ->
   add_material_to_user_collection request s
   = (Raise (ValidationError [("detail", "Material is already added")]), s))
  /\ (has_material_user (current s) (sql_int_of (pk request))
        (u_id (user request)) = false ->
      forall errors,
        fst (add_material_to_user_collection request s)
        <> Raise (ValidationError errors)).
Proof.
  unfold add_material_to_user_collection, insert_MaterialUser. run.
  split; intros H; rewrite H.
  - reflexivity.
  - intros errors.
    destruct (has_material _ _ && has_user _ _); simpl; discriminate.
Qed.

Lemma filter_filter {A} (f : A -> bool) (l : list A) :
  List.filter f (List.filter f l) = List.filter f l.
Proof.
  induction l as [|x l IH]; simpl; [reflexivity|].
  destruct (f x) eqn:E; simpl; rewrite ?E, IH; reflexivity.
Qed.

(** C10.  Removing a material from the requester's collection always
    answers 200; it deletes the links of that material and that user and
    no other row, whether or not there is such a link; and removing again
    changes nothing more. *)
Theorem remove_idempotent (request : Request) (s : state) :
  exists s',
    remove_material_from_user_collection request s
    = (Ok {| status := 200; content := NoBody |}, s')
    /\ material_users (current s')
       = List.filter
           (fun r => negb (sql_eq_int (mu_material r) (pk request)
                           && Z.eqb (mu_user r) (u_id (user request))))
           (material_users (current s))
    /\ users (current s') = users (current s)
    /\ categories (current s') = categories (current s)
    /\ materials (current s') = materials (current s)
    /\ material_categories (current s') = material_categories (current s)
    /\ frame s s'
    /\ remove_material_from_user_collection request s'
       = (Ok {| status := 200; content := NoBody |}, s').
Proof.
  unfold remove_material_from_user_collection, delete_MaterialUser. run.
  eexists; split; [reflexivity|]. simpl.
  repeat split. unfold with_current, set_material_users; simpl.
  rewrite filter_filter. reflexivity.
Qed.

(** C6, amended.  A permitted soft delete answers 204; it sets the
    [deleted] flag of the addressed rows and removes no row of [Material];
    it removes the requesting user's link to the material and no other
    link. *)
Theorem soft_delete (request : Request) (s : state) (material : Material) :
  head (List.filter (get_queryset request) (materials (current s)))
  = Some material ->
  m_owner material = u_id (user request)
  \/ (MODERATOR <= u_role (user request))%Z ->
  exists s',
    MaterialView_delete request s
    = (Ok {| status := 204; content := NoBody |}, s')
    /\ materials (current s')
       = map (fun r => if get_queryset request r then mark_deleted r else r)
           (materials (current s))
    /\ map m_id (materials (current s')) = map m_id (materials (current s))
    /\ In (mark_deleted material) (materials (current s'))
    /\ material_users (current s')
       = List.filter
           (fun r => negb (Z.eqb (mu_material r) (m_id material)
                           && Z.eqb (mu_user r) (u_id (user request))))
           (material_users (current s))
    /\ (forall r, In r (material_users (current s)) ->
          mu_user r <> u_id (user request) ->
          In r (material_users (current s'))).
Proof.
  intros Hm Hp. unfold MaterialView_delete. unfold bindM at 1, read at 1.
  rewrite Hm.
  assert (Hperm : negb (m_owner material =? u_id (user request))%Z
                  && (u_role (user request) <? MODERATOR)%Z = false).
  { destruct Hp as [->|Hp].
    - rewrite Z.eqb_refl. reflexivity.
    - apply andb_false_iff. right. apply Z.ltb_ge, Hp. }
  rewrite Hperm. clear Hperm.
  unfold update_deleted, delete_MaterialUser, remove_file. run.
  assert (Hin : In material (materials (current s))
                /\ get_queryset request material = true).
  { destruct (List.filter _ _) as [|x l] eqn:E; [discriminate|].
    injection Hm as ->.
    apply (filter_In (get_queryset request)). rewrite E. left. reflexivity. }
  destruct Hin as [Hin Hq].
  destruct (negb (find MEDIA_URL (m_file material) =? -1)%Z); simpl;
    (eexists; split; [reflexivity|]; simpl;
     split; [reflexivity|];
     split; [rewrite map_map; apply map_ext; intros r;
             destruct (get_queryset request r); reflexivity|];
     split; [apply in_map_iff; exists material; rewrite Hq; auto|];
     split; [reflexivity|];
     intros r Hr Hu; apply filter_In; split; [exact Hr|];
     destruct (Z.eqb_spec (mu_user r) (u_id (user request)));
       [contradiction | rewrite andb_false_r; reflexivity]).
Qed.

(** ** Further properties of the predicate builder *)

(** X6.  An [owner] parameter that is not a number fails the listing and the
    search with [ValueError]; no predicate is built. *)
Theorem owner_not_a_number (request : Request) (d : db) (o : string) :
  get "owner" (query request) = Some o ->
  py_int o = None ->
  get_queryset_by_user request d = Raise ValueError
  /\ MaterialsView_get request d = Raise ValueError
  /\ (forall text, get "text" (query request) = Some text ->
      search_materials request d = Raise ValueError).
Proof.
  intros Ho Hn.
  assert (H : get_queryset_by_user request d = Raise ValueError).
  { unfold get_queryset_by_user. rewrite Ho, Hn. reflexivity. }
  split; [exact H|]. split.
  - unfold MaterialsView_get. rewrite H. reflexivity.
  - intros text Ht. unfold search_materials. rewrite Ht, H. reflexivity.
Qed.

Lemma iand_None q o : iand q o = None <-> q = None /\ o = None.
Proof.
  destruct q; simpl; split; try discriminate; intros H.
  - destruct H; discriminate.
  - split; [reflexivity | exact H].
  - apply H.
Qed.

Lemma type_queryset_None types : type_queryset types = None <-> types = [].
Proof.
  split.
  - intros H. destruct types; [reflexivity|].
    exfalso. revert H. apply type_queryset_not_None. discriminate.
  - intros ->. reflexivity.
Qed.

Lemma refine_None request d q0 :
  refine request d q0 = None
  <-> q0 = None
      /\ (forall cats, getall "category" (query request) = Some cats ->
           resolves_to_nothing d cats = true)
      /\ getall "type" (query request) = None
      /\ (forall o, get "owner" (query request) = Some o ->
           owner_rows d o = []).
Proof using Type.
  unfold refine.
  destruct (getall "category" (query request)) as [cats|] eqn:Hc;
    destruct (getall "type" (query request)) as [types|] eqn:Ht;
    destruct (get "owner" (query request)) as [o|] eqn:Ho;
    rewrite ?iand_None, ?category_queryset_None, ?materials_of_None,
      ?type_queryset_None;
    try (apply getall_nonempty in Ht);
    (split;
     [ intros H;
       repeat match goal with
       | H : _ /\ _ |- _ => destruct H
       end;
       repeat split; try (intros ? [= <-]); try assumption; congruence
     | intros (Hq & Hcats & Htype & Hrows); try discriminate;
       repeat split; auto ]).
Qed.

(** X2.  The builder returns no predicate at all exactly when the requester
    lists their own collection, that collection is empty, no [type] is
    supplied and the categories supplied, if any, have no material. *)
Theorem no_predicate (request : Request) (d : db) :
  get_queryset_by_user request d = Ok None
  <-> requests_own request = true
      /\ (forall cats, getall "category" (query request) = Some cats ->
           resolves_to_nothing d cats = true)
      /\ getall "type" (query request) = None
      /\ (forall o, get "owner" (query request) = Some o ->
           owner_rows d o = []).
Proof.
  rewrite get_queryset_by_user_refine.
  assert (Hi : initial_queryset request
               = if requests_own request then Ok None
                 else match get "owner" (query request) with
                      | Some o =>
                          match py_int o with
                          | Some _ => Ok (Some visibility)
                          | None => Raise ValueError
                          end
                      | None => Ok (Some visibility)
                      end).
  { unfold initial_queryset, requests_own.
    destruct (get "owner" (query request)) as [o|]; [|reflexivity].
    destruct (py_int o) as [n|]; [|reflexivity].
    destruct (u_id (user request) =? n)%Z; reflexivity. }
  rewrite Hi. destruct (requests_own request).
  - unfold bind. split.
    + intros [= H]. apply refine_None in H. split; [reflexivity | apply H].
    + intros [_ H]. f_equal. apply refine_None. split; [reflexivity | exact H].
  - split; [|intros [H _]; discriminate].
    destruct (get "owner" (query request)) as [o|];
      [destruct (py_int o); [|discriminate]|];
      unfold bind; intros [= H]; apply refine_None in H as [H _];
      discriminate.
Qed.

Lemma narrows_refl row q : narrows row q q.
Proof. destruct q as [c|]; [right; exists c, c; auto | left; reflexivity]. Qed.

Lemma narrows_iand_self row q o : narrows row (iand q o) q.
Proof.
  destruct q as [c|]; [|left; reflexivity].
  right. exists (and_ c o), c. repeat split.
  unfold and_. rewrite holds_And. intros H.
  apply andb_true_iff in H. apply H.
Qed.

Lemma narrows_iand row a b o : narrows row a b -> narrows row (iand a o) (iand b o).
Proof.
  intros [->|(ca & cb & -> & -> & H)].
  - destruct o as [co|]; [|left; reflexivity].
    right. destruct a as [ca|]; simpl.
    + exists (and_ ca (Some co)), co. repeat split.
      unfold and_. rewrite holds_And. simpl. intros Hc.
      apply andb_true_iff in Hc. apply Hc.
    + exists co, co. auto.
  - right. exists (and_ ca o), (and_ cb o). repeat split.
    unfold and_. rewrite !holds_And. intros Hc.
    apply andb_true_iff in Hc as [Ha Ho]. rewrite (H Ha), Ho. reflexivity.
Qed.

Lemma narrows_step {A} row a b (supplied : option A) (f : A -> option clause) :
  narrows row a b ->
  narrows row (match supplied with Some x => iand a (f x) | None => a end)
    (match supplied with Some x => iand b (f x) | None => b end).
Proof. destruct supplied; [apply narrows_iand | trivial]. Qed.

(** X1.  Adding a [category] or a [type] parameter to a listing that has none
    of that name and that builds its predicate without raising can only
    narrow the selection.  The extended request does not raise either; if
    the listing had a predicate, the extended one has a predicate and every
    row that it selects was selected before; if the listing had none, its
    selection was every row. *)
Theorem added_dimension_narrows (request : Request) (d : db)
    (key value : string) (q : option clause) :
  key = "category" \/ key = "type" ->
  getall key (query request) = None ->
  get_queryset_by_user request d = Ok q ->
  exists q',
    get_queryset_by_user
      (with_query ((key, value) :: query request) request) d = Ok q'
    /\ (forall c, q = Some c ->
         exists c', q' = Some c'
           /\ forall row, holds c' row = true -> holds c row = true)
    /\ (forall row, matches q' row = true -> matches q row = true).
Proof.
  intros Hkey Hnone. rewrite !get_queryset_by_user_refine.
  assert (Hi : initial_queryset
                 (with_query ((key, value) :: query request) request)
               = initial_queryset request).
  { unfold initial_queryset. simpl.
    destruct Hkey as [-> | ->]; reflexivity. }
  rewrite Hi. destruct (initial_queryset request) as [q0|e]; [|discriminate].
  simpl. intros [= Hq].
  assert (Hn : forall row,
             narrows row
               (refine (with_query ((key, value) :: query request) request)
                  d q0)
               (refine request d q0)).
  { intros row. unfold refine. simpl. unfold getall in *. simpl.
    destruct Hkey as [-> | ->]; simpl.
    - destruct (values_of "category" (query request)); [|discriminate].
      apply (narrows_step _ _ _ _ (fun o => materials_of (owner_rows d o))).
      apply (narrows_step _ _ _ _ type_queryset).
      apply narrows_iand_self.
    - destruct (values_of "type" (query request)); [|discriminate].
      apply (narrows_step _ _ _ _ (fun o => materials_of (owner_rows d o))).
      apply narrows_iand_self. }
  rewrite Hq in Hn.
  exists (refine (with_query ((key, value) :: query request) request) d q0).
  split; [reflexivity|]. split.
  - intros c ->.
    destruct (refine (with_query _ request) d q0) as [c'|] eqn:E.
    + exists c'. split; [reflexivity|]. intros row.
      destruct (Hn row) as [H|(ca & cb & [= <-] & [= <-] & H)];
        [discriminate | exact H].
    + exfalso. destruct (Hn (Build_Material 0 "" "" "" "" "" 0 true false 0))
        as [H|(ca & cb & H & _)]; discriminate.
  - intros row Hm.
    destruct (Hn row) as [->|(ca & cb & Ea & -> & H)]; [reflexivity|].
    rewrite Ea in Hm. simpl in *. exact (H Hm).
Qed.

(** X4.  Under the visibility floor the search view returns a page of rows
    that are open, not deleted, and whose name or author matches the
    text. *)
Theorem search_under_floor (request : Request) (d : db) (text : string) :
  get "text" (query request) = Some text ->
  get "owner" (query request) = None
  \/ (exists o n, get "owner" (query request) = Some o
        /\ py_int o = Some n /\ n <> u_id (user request)) ->
  exists rows,
    search_materials request d
    = Ok {| status := 200;
            content :=
              Documents
                (map (MaterialSerializer_to_json d)
                   (page_paginator request rows)) |}
    /\ forall row, In row rows ->
         In row (materials d)
         /\ m_is_open row = true /\ m_deleted row = false
         /\ text_matches row text = true.
Proof.
  intros Ht Ho.
  assert (Hq : initial_queryset request = Ok (Some visibility)).
  { unfold initial_queryset.
    destruct Ho as [-> | (o & n & -> & -> & Hn)]; [reflexivity|].
    destruct (Z.eqb_spec (u_id (user request)) n); [congruence | reflexivity]. }
  assert (Hf : floored (refine request d (Some visibility))).
  { apply floored_refine. exists visibility.
    split; [reflexivity|]. simpl. auto. }
  pose proof Hf as (c & Hc & _).
  unfold search_materials. rewrite Ht, get_queryset_by_user_refine, Hq.
  simpl. rewrite Hc. eexists. split; [reflexivity|].
  intros row Hr. apply filter_In in Hr as [Hin Hr].
  unfold and_ in Hr. rewrite holds_And in Hr. simpl in Hr.
  apply andb_true_iff in Hr as [Hr Hm].
  rewrite Hc in Hf.
  destruct (floored_visible (Some c) row Hf Hr) as [H1 H2].
  repeat split; try assumption.
  rewrite holds_Or in Hm. unfold text_matches.
  unfold holds in Hm; simpl in Hm.
  destruct (sql_like (m_name row) _), (sql_like (m_author row) _);
    simpl in *; congruence.
Qed.

(** ** Further properties of the soft delete *)

(** X7.  A requester who is neither the owner nor a moderator is refused, and
    nothing is changed: no flag, no link, no file. *)
Theorem delete_forbidden (request : Request) (s : state)
    (material : Material) :
  head (List.filter (get_queryset request) (materials (current s)))
  = Some material ->
  m_owner material <> u_id (user request) ->
  (u_role (user request) < MODERATOR)%Z ->
  MaterialView_delete request s = (Raise PermissionDenied, s).
Proof.
  intros Hm Ho Hr. unfold MaterialView_delete. unfold bindM at 1, read at 1.
  rewrite Hm.
  destruct (Z.eqb_spec (m_owner material) (u_id (user request)));
    [contradiction|].
  apply Z.ltb_lt in Hr. rewrite Hr. reflexivity.
Qed.

(** X8.  When no row has the id of the route, the view raises
    [AttributeError] on the empty result and changes nothing. *)
Theorem delete_missing (request : Request) (s : state) :
  List.filter (get_queryset request) (materials (current s)) = [] ->
  MaterialView_delete request s = (Raise AttributeError, s).
Proof.
  intros H. unfold MaterialView_delete. unfold bindM at 1, read at 1.
  rewrite H. reflexivity.
Qed.

Lemma MaterialView_delete_permitted request s material :
  head (List.filter (get_queryset request) (materials (current s)))
  = Some material ->
  m_owner material = u_id (user request)
  \/ (MODERATOR <= u_role (user request))%Z ->
  MaterialView_delete request s
  = (Ok {| status := 204; content := NoBody |},
     soft_deleted request material s).
Proof.
  intros Hm Hp. unfold MaterialView_delete. unfold bindM at 1, read at 1.
  rewrite Hm.
  assert (Hperm : negb (m_owner material =? u_id (user request))%Z
                  && (u_role (user request) <? MODERATOR)%Z = false).
  { destruct Hp as [->|Hp].
    - rewrite Z.eqb_refl. reflexivity.
    - apply andb_false_iff. right. apply Z.ltb_ge, Hp. }
  rewrite Hperm. clear Hperm.
  unfold update_deleted, delete_MaterialUser, remove_file, soft_deleted. run.
  destruct (negb (find MEDIA_URL (m_file material) =? -1)%Z); reflexivity.
Qed.

(** The view answers only on the permitted path. *)
Lemma MaterialView_delete_Ok request s response s' :
  MaterialView_delete request s = (Ok response, s') ->
  exists material,
    head (List.filter (get_queryset request) (materials (current s)))
    = Some material
    /\ (m_owner material = u_id (user request)
        \/ (MODERATOR <= u_role (user request))%Z)
    /\ response = {| status := 204; content := NoBody |}
    /\ s' = soft_deleted request material s.
Proof.
  intros H.
  destruct (head (List.filter (get_queryset request) (materials (current s))))
    as [material|] eqn:Hm.
  - destruct (Z.eq_dec (m_owner material) (u_id (user request))) as [Ho|Ho].
    + rewrite (MaterialView_delete_permitted _ _ _ Hm (or_introl Ho)) in H.
      injection H as <- <-. exists material. auto.
    + destruct (Z.lt_ge_cases (u_role (user request)) MODERATOR) as [Hr|Hr].
      * exfalso. unfold MaterialView_delete in H.
        unfold bindM at 1, read at 1 in H. rewrite Hm in H.
        destruct (Z.eqb_spec (m_owner material) (u_id (user request)));
          [contradiction|].
        apply Z.ltb_lt in Hr. rewrite Hr in H. discriminate.
      * rewrite (MaterialView_delete_permitted _ _ _ Hm (or_intror Hr)) in H.
        injection H as <- <-. exists material. auto.
  - unfold MaterialView_delete in H. unfold bindM at 1, read at 1 in H.
    rewrite Hm in H. discriminate.
Qed.

Lemma filter_map_same {A} (p : A -> bool) (f : A -> A) (l : list A) :
  (forall x, p (f x) = p x) ->
  List.filter p (map f l) = map f (List.filter p l).
Proof.
  intros H. induction l as [|x l IH]; simpl; [reflexivity|].
  rewrite H. destruct (p x); simpl; rewrite IH; reflexivity.
Qed.

Lemma mark_deleted_twice r : mark_deleted (mark_deleted r) = mark_deleted r.
Proof. reflexivity. Qed.

Lemma get_queryset_mark request r :
  get_queryset request
    (if get_queryset request r then mark_deleted r else r)
  = get_queryset request r.
Proof. destruct (get_queryset request r) eqn:E; exact E. Qed.

(** X9.  A permitted soft delete can be repeated: the second one answers 204
    again and leaves the state of the first. *)
Theorem delete_twice (request : Request) (s s' : state)
    (response : response) :
  MaterialView_delete request s = (Ok response, s') ->
  MaterialView_delete request s'
  = (Ok {| status := 204; content := NoBody |}, s').
Proof.
  intros H. apply MaterialView_delete_Ok in H
    as (material & Hm & Hp & _ & ->).
  assert (Hq : get_queryset request material = true).
  { destruct (List.filter _ _) as [|x l] eqn:E; [discriminate|].
    injection Hm as ->.
    apply (proj2 (proj1 (filter_In (get_queryset request) material
                           (materials (current s))) ltac:(rewrite E; left; reflexivity))). }
  rewrite (MaterialView_delete_permitted request _ (mark_deleted material)).
  - f_equal. unfold soft_deleted. simpl. f_equal.
    + unfold set_material_users, set_materials. simpl. f_equal.
      * rewrite map_map. apply map_ext. intros r.
        rewrite get_queryset_mark.
        destruct (get_queryset request r); reflexivity.
      * apply filter_filter.
    + destruct (negb (find MEDIA_URL (m_file material) =? -1)%Z);
        [|reflexivity].
      apply map_eq. intros k.
      destruct (decide (BASE_DIR ++ "/"
                        ++ slice_from (find MEDIA_URL (m_file material))
                             (m_file material) = k)) as [->|Hk].
      * rewrite !lookup_delete_eq. reflexivity.
      * rewrite !lookup_delete_ne by exact Hk. reflexivity.
  - unfold soft_deleted. simpl.
    rewrite (filter_map_same (get_queryset request)
               (fun r => if get_queryset request r then mark_deleted r else r))
      by apply get_queryset_mark.
    destruct (List.filter (get_queryset request) (materials (current s)))
      as [|x l]; [discriminate|].
    injection Hm as ->. simpl. rewrite Hq. reflexivity.
  - exact Hp.
Qed.

(** X10.  After a soft delete no listing under the visibility floor selects a
    row of the deleted id. *)
Theorem deleted_not_listed (request listing : Request) (s s' : state)
    (response : response) :
  MaterialView_delete request s = (Ok response, s') ->
  get "owner" (query listing) = None
  \/ (exists o n, get "owner" (query listing) = Some o
        /\ py_int o = Some n /\ n <> u_id (user listing)) ->
  exists c,
    get_queryset_by_user listing (current s') = Ok (Some c)
    /\ forall row, In row (select_where (Some c) (current s')) ->
         get_queryset request row = false.
Proof.
  intros H Ho. apply MaterialView_delete_Ok in H
    as (material & _ & _ & _ & ->).
  assert (Hq : initial_queryset listing = Ok (Some visibility)).
  { unfold initial_queryset.
    destruct Ho as [-> | (o & n & -> & -> & Hn)]; [reflexivity|].
    destruct (Z.eqb_spec (u_id (user listing)) n); [congruence | reflexivity]. }
  set (d' := current (soft_deleted request material s)).
  assert (Hf : floored (refine listing d' (Some visibility))).
  { apply floored_refine. exists visibility.
    split; [reflexivity|]. simpl. auto. }
  pose proof Hf as (c & Hc & _).
  exists c. rewrite get_queryset_by_user_refine, Hq. simpl. rewrite Hc.
  split; [reflexivity|]. intros row Hr.
  apply filter_In in Hr as [Hin Hr]. rewrite Hc in Hf.
  destruct (floored_visible (Some c) row Hf Hr) as [_ Hd].
  unfold d', soft_deleted in Hin. simpl in Hin.
  apply in_map_iff in Hin as (r & <- & _).
  destruct (get_queryset request r) eqn:E; [discriminate Hd | exact E].
Qed.

(** ** Further properties of the creation *)

Lemma store_files_run vd s :
  match store_files file_fields vd s with
  | (Ok vd', s') =>
      exists original data,
        vd !! "file" = Some (VFile original data)
        /\ s' = with_disk
                  (<[upload_dir ++ "/"
                     ++ generate_file_name (disk s) upload_dir original
                     := data]> (disk s)) s
        /\ vd' = <["extension" :=
                     VStr (extension_of
                             (generate_file_name (disk s) upload_dir original))]>
                   (<["file" :=
                        VStr (url_of
                                (generate_file_name (disk s) upload_dir
                                   original))]> vd)
  | (Raise e, s') => s' = s
  end.
Proof.
  unfold file_fields, store_files, bindM, store_file.
  destruct (vd !! "file") as [[]|]; unfold raise, ret; try reflexivity.
  eexists _, _. repeat split.
Qed.

Lemma has_category_set_material_categories mcs d c :
  has_category (set_material_categories mcs d) c = has_category d c.
Proof. reflexivity. Qed.

Lemma insert_categories_Ok m cs s s' :
  insert_categories m cs s = (Ok tt, s') ->
  Forall (fun c => has_category (current s) (c_id c) = true) cs.
Proof.
  revert s; induction cs as [|c cs IH]; intros s; simpl; [constructor|].
  unfold bindM, insert_MaterialCategory at 1. run.
  destruct (has_material (current s) m) eqn:Hm; simpl; [|discriminate].
  destruct (has_category (current s) (c_id c)) eqn:Hc; simpl; [|discriminate].
  intros H. constructor; [exact Hc|].
  apply IH in H. simpl in H. exact H.
Qed.

Lemma write_unit_constraints request vd s id s' :
  write_unit request vd s = (Ok id, s') ->
  exists row cs,
    vd !! "categories" = Some (VCategories cs)
    /\ Material_row (current s) (delete "categories" vd) = Ok row
    /\ has_user (current s) (m_owner row) = true
    /\ Forall (fun c => has_category (current s) (c_id c) = true) cs.
Proof.
  unfold write_unit. unfold bindM at 1.
  destruct (vd !! "categories") as [v|]; [|discriminate].
  unfold ret at 1. unfold bindM at 1, insert_Material. run.
  destruct (Material_row (current s) (delete "categories" vd)) as [row|e];
    [|discriminate].
  destruct (has_user (current s) (m_owner row)) eqn:Hu; simpl; [|discriminate].
  unfold insert_MaterialUser. run.
  destruct (has_material_user _ _ _); [discriminate|].
  destruct (has_material _ _ && has_user _ _); simpl; [|discriminate].
  destruct v as [| | | | |cs]; try discriminate.
  destruct (insert_categories _ _ _) as [[[]|e] s2] eqn:Hi; [|discriminate].
  intros _. exists row, cs. repeat split; try assumption.
  apply insert_categories_Ok in Hi. simpl in Hi. exact Hi.
Qed.

Lemma write_coordinator_Ok request vd s id s' :
  write_coordinator request vd s = (Ok (inr id), s') ->
  exists row cs,
    vd !! "categories" = Some (VCategories cs)
    /\ Material_row (current s) (delete "categories" vd) = Ok row
    /\ id = m_id row
    /\ has_user (current s) (m_owner row) = true
    /\ Forall (fun c => has_category (current s) (c_id c) = true) cs
    /\ current s' = committed request row cs (current s)
    /\ snapshot s' = None /\ disk s' = disk s.
Proof.
  intros H. pose proof (write_coordinator_run request vd s) as R.
  rewrite H in R. destruct R as (row & cs & Hc & Hrow & -> & Hcur & Hs & Hd).
  revert H. unfold write_coordinator, begin. unfold bindM at 1.
  set (s1 := {| current := current s; snapshot := Some (current s);
                disk := disk s |}).
  unfold bindM at 1, try_except. unfold bindM at 1.
  destruct (write_unit request vd s1) as [[id|e] s2] eqn:Hw.
  - intros _. apply write_unit_constraints in Hw
      as (row' & cs' & Hc' & Hrow' & Hu & Hf).
    simpl in Hrow', Hu, Hf.
    rewrite Hc in Hc'. injection Hc' as <-.
    rewrite Hrow in Hrow'. injection Hrow' as <-.
    exists row, cs. repeat split; assumption.
  - unfold bindM, rollback, ret. discriminate.
Qed.

(** The whole of a creation request, by the kind of its outcome. *)
Lemma multipart_post_trace request s :
  match multipart_post request s with
  | (Raise e, s') => s' = s
  | (Ok response, s') =>
      exists original data,
        snapshot s' = None
        /\ disk s'
           = <[upload_dir ++ "/"
               ++ generate_file_name (disk s) upload_dir original
               := data]> (disk s)
        /\ ((exists e,
               response = {| status := 200; content := ExceptionDetail e |}
               /\ current s' = current s)
            \/ (exists row cs,
                  m_id row = lastrowid (current s)
                  /\ m_file row
                     = url_of (generate_file_name (disk s) upload_dir original)
                  /\ m_extension row
                     = extension_of
                         (generate_file_name (disk s) upload_dir original)
                  /\ has_user (current s) (m_owner row) = true
                  /\ Forall
                       (fun c => has_category (current s) (c_id c) = true) cs
                  /\ current s' = committed request row cs (current s)
                  /\ response
                     = {| status := 201;
                          content :=
                            Document
                              (MaterialSerializer_to_json (current s')
                                 <$> head
                                       (List.filter
                                          (fun r => Z.eqb (m_id r) (m_id row))
                                          (materials (current s')))) |}))
  end.
Proof.
  unfold multipart_post. unfold bindM at 1, lift at 1.
  destruct (load_categories _) as [j|e]; [|reflexivity].
  unfold bindM at 1, read at 1. unfold bindM at 1, lift at 1.
  destruct (create_validate request (current s) _) as [vd|e] eqn:Hv;
    [|reflexivity].
  unfold bindM at 1.
  pose proof (store_files_run vd s) as Hs.
  destruct (store_files file_fields vd s) as [[vd'|e] s1]; [|exact Hs].
  destruct Hs as (original & data & Hfile & -> & ->).
  unfold bindM at 1.
  match goal with
  | |- context [write_coordinator request ?v ?st] =>
      pose proof (write_coordinator_run request v st) as R;
      destruct (write_coordinator request v st) as [[[failure|id]|e] s2] eqn:Hw
  end; [| |contradiction].
  - destruct R as (e & s3 & s4 & _ & _ & -> & Hc & Hsn & Hd).
    unfold ret. exists original, data. split; [exact Hsn|].
    split; [exact Hd|]. left. exists e. split; [reflexivity | exact Hc].
  - clear R. apply write_coordinator_Ok in Hw
      as (row & cs & Hc & Hrow & -> & Hu & Hf & Hcur & Hsn & Hd).
    unfold bindM, read, ret. simpl.
    exists original, data. split; [exact Hsn|]. split; [exact Hd|].
    right. exists row, cs. simpl in Hrow, Hu, Hf, Hcur.
    assert (Hrow' := Hrow).
    apply Material_row_owner in Hrow' as [_ Hid].
    assert (Hcols : m_file row
                    = url_of (generate_file_name (disk s) upload_dir original)
                    /\ m_extension row
                       = extension_of
                           (generate_file_name (disk s) upload_dir original)).
    { revert Hrow. unfold Material_row, bind, str_column.
      destruct (negb _); [discriminate|].
      rewrite !lookup_delete_ne by discriminate.
      rewrite lookup_insert_eq.
      rewrite (lookup_insert_ne _ "extension" "file") by discriminate.
      rewrite (lookup_insert_ne _ "extension" "name") by discriminate.
      rewrite (lookup_insert_ne _ "extension" "author") by discriminate.
      rewrite (lookup_insert_ne _ "extension" "type") by discriminate.
      rewrite lookup_insert_eq.
      repeat match goal with
      | |- context [match ?m !! ?k with _ => _ end] =>
          destruct (m !! k) as [[]|]; try discriminate
      end; intros [= <-]; split; reflexivity. }
    destruct Hcols as [Hfl Hext].
    repeat split; assumption.
Qed.

(** *** The extension of a stored file *)

Lemma rfind_from_bound c s i last :
  (-1 <= last)%Z -> (0 <= i)%Z -> (-1 <= rfind_from c s i last)%Z.
Proof.
  revert i last; induction s as [|a s IH]; intros i last Hl Hi; simpl.
  - exact Hl.
  - apply IH; [destruct (Ascii.eqb a c)|]; lia.
Qed.

Lemma rfind_from_spec c s i last :
  rfind_from c s i last
  = if (rfind c s =? -1)%Z then last else (i + rfind c s)%Z.
Proof.
  revert i last; induction s as [|a s IH]; intros i last; simpl.
  - reflexivity.
  - unfold rfind. simpl. rewrite (IH (i + 1)%Z), (IH 1%Z).
    fold (rfind c s).
    pose proof (rfind_from_bound c s 0 (-1) ltac:(lia) ltac:(lia)) as Hb.
    fold (rfind c s) in Hb.
    destruct (Z.eqb_spec (rfind c s) (-1)) as [E|E].
    + destruct (Ascii.eqb a c); simpl; [f_equal; lia | reflexivity].
    + destruct (Z.eqb_spec (1 + rfind c s) (-1)); lia.
Qed.

Lemma rfind_from_append c a s i last :
  rfind_from c (a ++ s) i last
  = rfind_from c s (i + Z.of_nat (String.length a)) (rfind_from c a i last).
Proof.
  revert i last; induction a as [|x a IH]; intros i last.
  - simpl. f_equal. lia.
  - simpl String.append. simpl rfind_from. rewrite IH.
    f_equal. simpl String.length. lia.
Qed.

(** The last dot of [base.ext] is the one before [ext] when [ext] has
    none. *)
Lemma rfind_last_dot base ext :
  rfind "." ext = (-1)%Z ->
  rfind "." (base ++ String "." ext) = Z.of_nat (String.length base).
Proof.
  intros H. unfold rfind at 1. rewrite rfind_from_append.
  cbn [rfind_from]. rewrite Ascii.eqb_refl, rfind_from_spec, H.
  simpl. lia.
Qed.

Lemma substring_all s : String.substring 0 (String.length s) s = s.
Proof. induction s as [|a s IH]; simpl; [reflexivity | rewrite IH; reflexivity]. Qed.

Lemma substring_skip a s m :
  String.substring (String.length a) m (a ++ s) = String.substring 0 m s.
Proof. induction a as [|x a IH]; simpl; [reflexivity | exact IH]. Qed.

Lemma length_append a s :
  String.length (a ++ s) = (String.length a + String.length s)%nat.
Proof. induction a as [|x a IH]; simpl; [reflexivity | rewrite IH; reflexivity]. Qed.

Lemma extension_of_dotted base ext :
  rfind "." ext = (-1)%Z ->
  extension_of (base ++ String "." ext) = upper ext.
Proof.
  intros H. unfold extension_of, slice_from.
  rewrite (rfind_last_dot base ext H).
  replace (Z.to_nat (Z.of_nat (String.length base) + 1))
    with (String.length (base ++ ".")).
  - replace (base ++ String "." ext) with ((base ++ ".") ++ ext).
    + set (prefix := base ++ ".").
      rewrite (length_append prefix ext).
      replace (String.length prefix + String.length ext
               - String.length prefix)%nat
        with (String.length ext) by lia.
      rewrite substring_skip, substring_all. reflexivity.
    + clear. induction base as [|x base IH]; [reflexivity|].
      change (String x ((base ++ ".") ++ ext)
              = String x (base ++ String "." ext)).
      rewrite IH. reflexivity.
  - rewrite length_append. simpl. lia.
Qed.

Lemma extension_of_undotted name :
  rfind "." name = (-1)%Z -> extension_of name = upper name.
Proof.
  intros H. unfold extension_of, slice_from. rewrite H. simpl.
  rewrite Nat.sub_0_r, substring_all. reflexivity.
Qed.

(** X12.  A creation request that raises leaves no trace: no row, no file, no
    open transaction. *)
Theorem creation_raise_leaves_no_trace (request : Request) (s s' : state)
    (e : exn) :
  multipart_post request s = (Raise e, s') -> s' = s.
Proof.
  intros H. pose proof (multipart_post_trace request s) as T.
  rewrite H in T. exact T.
Qed.

(** X13.  Whenever the creation view answers, also with the exception of a
    rolled back unit, the transaction is closed and the upload is on the
    disk; no other file is touched. *)
Theorem upload_survives_rollback (request : Request) (s s' : state)
    (response : response) :
  multipart_post request s = (Ok response, s') ->
  snapshot s' = None
  /\ exists name data,
       disk s' !! (upload_dir ++ "/" ++ name) = Some data
       /\ forall path, path <> upload_dir ++ "/" ++ name ->
            disk s' !! path = disk s !! path.
Proof.
  intros H. pose proof (multipart_post_trace request s) as T.
  rewrite H in T. destruct T as (original & data & Hs & Hd & _).
  split; [exact Hs|].
  exists (generate_file_name (disk s) upload_dir original), data.
  rewrite Hd. split.
  - apply lookup_insert_eq.
  - intros path Hp. apply lookup_insert_ne. congruence.
Qed.

(** X14.  The extension stored with a created material is [upper], that is
    Python's [str.upper()], of the text after the last dot of the stored
    file name, and [upper] of the whole name when it has no dot; the file
    stored with it is the URL of that name. *)
Theorem stored_extension (request : Request) (s s' : state)
    (response : response) :
  multipart_post request s = (Ok response, s') ->
  status response = 201%Z ->
  exists row name,
    In row (materials (current s'))
    /\ m_id row = lastrowid (current s)
    /\ m_file row = url_of name
    /\ (forall base ext,
          name = base ++ String "." ext -> rfind "." ext = (-1)%Z ->
          m_extension row = upper ext)
    /\ (rfind "." name = (-1)%Z -> m_extension row = upper name).
Proof.
  intros H Hst. pose proof (multipart_post_trace request s) as T.
  rewrite H in T. destruct T as (original & data & _ & _ & [T|T]).
  - destruct T as (e & -> & _). discriminate.
  - destruct T as (row & cs & Hid & Hfile & Hext & _ & _ & Hcur & _).
    exists row, (generate_file_name (disk s) upload_dir original).
    rewrite Hcur. simpl. split; [apply in_or_app; right; left; reflexivity|].
    split; [exact Hid|]. split; [exact Hfile|]. rewrite Hext. split.
    + intros base ext -> Hn. apply extension_of_dotted, Hn.
    + apply extension_of_undotted.
Qed.

Lemma lastrowid_fresh d r : In r (materials d) -> (m_id r < lastrowid d)%Z.
Proof using Type.
  unfold lastrowid. induction (materials d) as [|x l IH]; simpl;
    [intros []|].
  intros [->|H]; [|specialize (IH H)]; lia.
Qed.

Lemma filter_none {A} (p : A -> bool) (l : list A) :
  (forall x, In x l -> p x = false) -> List.filter p l = [].
Proof.
  induction l as [|x l IH]; intros H; simpl; [reflexivity|].
  rewrite (H x) by (left; reflexivity).
  apply IH. intros y Hy. apply H. right. exact Hy.
Qed.

Lemma filter_fresh d row :
  m_id row = lastrowid d ->
  List.filter (fun r => Z.eqb (m_id r) (m_id row)) (materials d ++ [row])
  = [row].
Proof.
  intros Hid. rewrite List.filter_app. simpl. rewrite Z.eqb_refl.
  rewrite filter_none; [reflexivity|].
  intros r Hr. apply lastrowid_fresh in Hr. apply Z.eqb_neq. lia.
Qed.

Lemma existsb_find {A} (p : A -> bool) (l : list A) :
  existsb p l = true -> exists x, List.find p l = Some x /\ p x = true.
Proof.
  induction l as [|x l IH]; simpl; [discriminate|].
  destruct (p x) eqn:E; [exists x; auto | exact IH].
Qed.

Lemma serialized_categories d m cs :
  Forall (fun c => has_category d (c_id c) = true) cs ->
  map (option_map c_id)
    (map (MaterialCategorySerializer_to_json d)
       (map (fun c => {| mc_material := m; mc_category := c_id c |}) cs))
  = map (fun c => Some (c_id c)) cs.
Proof.
  induction 1 as [|c cs Hc _ IH]; simpl; [reflexivity|].
  rewrite IH. f_equal.
  unfold MaterialCategorySerializer_to_json. simpl.
  apply existsb_find in Hc as (x & -> & Hx). simpl.
  apply Z.eqb_eq in Hx. rewrite Hx. reflexivity.
Qed.

(** X15.  The answer to a successful creation is the document of the new
    material: its id is the generated key, its owner is the requester, and
    its categories are those of the links just created, in their order.
    This is stated for tables whose category links all point to a
    material. *)
Theorem created_document (request : Request) (s s' : state)
    (response : response) :
  links_resolve (current s) ->
  multipart_post request s = (Ok response, s') ->
  status response = 201%Z ->
  exists doc cs,
    content response = Document (Some doc)
    /\ In (doc_row doc) (materials (current s'))
    /\ m_id (doc_row doc) = lastrowid (current s)
    /\ (exists u, doc_owner doc = Some u /\ u_id u = u_id (user request))
    /\ material_categories (current s')
       = (material_categories (current s)
          ++ map (fun c => {| mc_material := m_id (doc_row doc);
                              mc_category := c_id c |}) cs)%list
    /\ map (option_map c_id) (doc_categories doc)
       = map (fun c => Some (c_id c)) cs.
Proof.
  intros Hlinks H Hst.
  pose proof (multipart_post_run request s) as R. rewrite H in R.
  pose proof (multipart_post_trace request s) as T. rewrite H in T.
  destruct T as (original & data & _ & _ & [T|T]);
    [destruct T as (e & -> & _); discriminate|].
  destruct T as (row & cs & Hid & _ & _ & Hu & Hcs & Hcur & ->).
  destruct R as [(e & ? & ? & ? & _ & _ & [=] & _)
                |(row' & cs' & _ & Ho & _ & Hcur')].
  assert (row' = row) as ->.
  { rewrite Hcur in Hcur'. apply (f_equal materials) in Hcur'. simpl in Hcur'.
    apply app_inv_head in Hcur'. congruence. }
  rewrite Hcur. simpl materials. rewrite (filter_fresh _ _ Hid). simpl.
  eexists _, cs. split; [reflexivity|]. simpl.
  split; [apply in_or_app; right; left; reflexivity|].
  split; [exact Hid|]. split; [|split; [reflexivity|]].
  - rewrite Ho in *. apply existsb_find in Hu as (u & -> & Hx).
    exists u. split; [reflexivity|]. apply Z.eqb_eq, Hx.
  - rewrite List.filter_app.
    rewrite filter_none.
    + simpl. rewrite <- (serialized_categories (current s) (m_id row) cs Hcs).
      f_equal. f_equal. clear. induction cs as [|c cs IH]; simpl;
        [reflexivity|]. rewrite Z.eqb_refl, IH. reflexivity.
    + intros mc Hmc. apply Hlinks in Hmc.
      apply existsb_exists in Hmc as (r & Hr & Hm).
      apply lastrowid_fresh in Hr. apply Z.eqb_eq in Hm.
      apply Z.eqb_neq. lia.
Qed.

(** X16.  A created material is in its creator's own listing: the listing with
    [owner] set to the requester's id, and no [category] or [type],
    selects the new row. *)
Theorem created_is_listed (request listing : Request) (s s' : state)
    (response : response) (o : string) :
  multipart_post request s = (Ok response, s') ->
  status response = 201%Z ->
  user listing = user request ->
  get "owner" (query listing) = Some o ->
  py_int o = Some (u_id (user request)) ->
  sql_eq_int (u_id (user request)) o = true ->
  getall "category" (query listing) = None ->
  getall "type" (query listing) = None ->
  exists c row,
    get_queryset_by_user listing (current s') = Ok (Some c)
    /\ In row (select_where (Some c) (current s'))
    /\ m_id row = lastrowid (current s).
Proof.
  intros H Hst Hu Ho Hint Heq Hc Ht.
  pose proof (multipart_post_run request s) as R. rewrite H in R.
  destruct R as [(e & ? & ? & ? & _ & _ & -> & _)
                |(row & cs & _ & _ & Hid & Hcur)]; [discriminate|].
  rewrite get_queryset_by_user_refine. unfold initial_queryset, refine.
  rewrite Ho, Hint, Hu, Z.eqb_refl, Hc, Ht. simpl.
  assert (Hin : In (m_id row) (owner_rows (current s') o)).
  { unfold owner_rows. rewrite Hcur. simpl. apply in_map_iff.
    exists {| mu_material := m_id row; mu_user := u_id (user request) |}.
    split; [reflexivity|]. apply filter_In. split.
    - apply in_or_app. right. left. reflexivity.
    - exact Heq. }
  destruct (materials_of (owner_rows (current s') o)) as [c|] eqn:Hm.
  - exists c, row. split; [reflexivity|]. split; [|exact Hid].
    apply filter_In. split.
    + rewrite Hcur. simpl. apply in_or_app. right. left. reflexivity.
    + simpl. change (any (Some c) row = true). rewrite <- Hm.
      rewrite any_materials_of. apply existsb_exists.
      exists (m_id row). split; [exact Hin | apply Z.eqb_refl].
  - apply materials_of_None in Hm. rewrite Hm in Hin. destruct Hin.
Qed.

(** ** Further properties of the collections *)

(** X17.  Adding to a collection either appends the requester's link to an
    existing material and answers 200, or raises and changes nothing; what
    it raises is the validation error of the duplicate or the integrity
    error of a missing material or user. *)
Theorem add_effect (request : Request) (s : state) :
  let m := sql_int_of (pk request) in
  let u := u_id (user request) in
  match add_material_to_user_collection request s with
  | (Ok response, s') =>
      response = {| status := 200; content := NoBody |}
      /\ has_material_user (current s) m u = false
      /\ has_material (current s) m = true
      /\ has_user (current s) u = true
      /\ current s'
         = set_material_users
             (material_users (current s)
              ++ [{| mu_material := m; mu_user := u |}]) (current s)
      /\ frame s s'
  | (Raise e, s') =>
      s' = s
      /\ (e = ValidationError [("detail", "Material is already added")]
          /\ has_material_user (current s) m u = true
          \/ e = IntegrityError 1452
             /\ has_material_user (current s) m u = false
             /\ has_material (current s) m && has_user (current s) u = false)
  end.
Proof.
  unfold add_material_to_user_collection, insert_MaterialUser. run.
  destruct (has_material_user _ _ _) eqn:Hp; simpl.
  - split; [reflexivity|]. left. auto.
  - destruct (has_material _ _) eqn:Hm, (has_user _ _) eqn:Hu; simpl;
      try (split; [reflexivity|]; right; auto).
    repeat split.
Qed.

Lemma filter_all {A} (p : A -> bool) (l : list A) :
  (forall x, In x l -> p x = true) -> List.filter p l = l.
Proof.
  induction l as [|x l IH]; intros H; simpl; [reflexivity|].
  rewrite (H x) by (left; reflexivity). f_equal.
  apply IH. intros y Hy. apply H. right. exact Hy.
Qed.

Lemma set_material_users_id d : set_material_users (material_users d) d = d.
Proof. destruct d; reflexivity. Qed.

(** X18.  Adding a material to one's collection and then removing it restores
    the tables, when the storage layer compares the [pk] of the route with
    the number it stored for it. *)
Theorem add_then_remove (request : Request) (s s1 : state)
    (response : response) :
  (forall z, sql_eq_int z (pk request) = Z.eqb z (sql_int_of (pk request))) ->
  add_material_to_user_collection request s = (Ok response, s1) ->
  exists s2,
    remove_material_from_user_collection request s1
    = (Ok {| status := 200; content := NoBody |}, s2)
    /\ current s2 = current s
    /\ frame s s2.
Proof.
  intros Heq H.
  assert (E : has_material_user (current s) (sql_int_of (pk request))
                (u_id (user request)) = false
              /\ current s1
                 = set_material_users
                     (material_users (current s)
                      ++ [{| mu_material := sql_int_of (pk request);
                             mu_user := u_id (user request) |}]) (current s)
              /\ snapshot s1 = snapshot s /\ disk s1 = disk s).
  { revert H. unfold add_material_to_user_collection, insert_MaterialUser.
    run. destruct (has_material_user _ _ _); simpl; [discriminate|].
    destruct (has_material _ _ && has_user _ _); simpl; [|discriminate].
    intros [= _ <-]. repeat split. }
  destruct E as (Hp & Hcur & Hs & Hd).
  unfold remove_material_from_user_collection, delete_MaterialUser. run.
  eexists. split; [reflexivity|]. simpl. split; [|split; assumption].
  rewrite Hcur. unfold set_material_users at 1 2. simpl.
  rewrite List.filter_app. simpl.
  rewrite Heq, !Z.eqb_refl. simpl. rewrite app_nil_r.
  rewrite filter_all.
  - apply set_material_users_id.
  - intros r Hr. rewrite Heq.
    destruct ((mu_material r =? sql_int_of (pk request))%Z
              && (mu_user r =? u_id (user request))%Z) eqn:E; [|reflexivity].
    exfalso. unfold has_material_user in Hp.
    assert (existsb
              (fun r => (mu_material r =? sql_int_of (pk request))%Z
                        && (mu_user r =? u_id (user request))%Z)
              (material_users (current s)) = true)
      by (apply existsb_exists; exists r; auto).
    congruence.
Qed.

(** ** Further properties of the listing *)

(** X5.  Under the visibility floor the listing view answers with documents
    of rows that are open and not deleted, as long as the paginator hands
    back rows of the query it was given. *)
Theorem listing_under_floor (request : Request) (d : db) :
  (forall paginate, list_paginator = Some paginate ->
     forall rows row, In row (paginate request rows) -> In row rows) ->
  get "owner" (query request) = None
  \/ (exists o n, get "owner" (query request) = Some o
        /\ py_int o = Some n /\ n <> u_id (user request)) ->
  exists docs,
    MaterialsView_get request d
    = Ok {| status := 200; content := Documents docs |}
    /\ forall doc, In doc docs ->
         In (doc_row doc) (materials d)
         /\ m_is_open (doc_row doc) = true
         /\ m_deleted (doc_row doc) = false.
Proof.
  intros Hpage Ho.
  assert (Hq : initial_queryset request = Ok (Some visibility)).
  { unfold initial_queryset.
    destruct Ho as [-> | (o & n & -> & -> & Hn)]; [reflexivity|].
    destruct (Z.eqb_spec (u_id (user request)) n); [congruence | reflexivity]. }
  assert (Hf : floored (refine request d (Some visibility))).
  { apply floored_refine. exists visibility.
    split; [reflexivity|]. simpl. auto. }
  unfold MaterialsView_get.
  rewrite get_queryset_by_user_refine, Hq. simpl.
  eexists. split; [reflexivity|].
  intros doc Hdoc. apply in_map_iff in Hdoc as (row & <- & Hrow). simpl.
  assert (Hsel : In row (select_where (refine request d (Some visibility)) d)).
  { destruct list_paginator as [paginate|];
      [exact (Hpage paginate eq_refl _ _ Hrow) | exact Hrow]. }
  apply filter_In in Hsel as [Hin Hm].
  split; [exact Hin|]. exact (floored_visible _ row Hf Hm).
Qed.

Lemma refine_owner_rows request d q0 o c row :
  get "owner" (query request) = Some o ->
  refine request d q0 = Some c ->
  holds c row = true ->
  In (m_id row) (owner_rows d o).
Proof.
  intros Ho Hc Hh. unfold refine in Hc. rewrite Ho in Hc.
  assert (Ha : any (materials_of (owner_rows d o)) row = true).
  { destruct (match getall "type" (query request) with
              | Some types => _
              | None => _
              end) as [q|]; simpl in Hc.
    - injection Hc as <-. unfold and_ in Hh. rewrite holds_And in Hh.
      apply andb_true_iff in Hh as [_ Hh].
      rewrite holds_coerce in Hh. exact Hh.
    - rewrite Hc. exact Hh. }
  rewrite any_materials_of in Ha.
  apply existsb_exists in Ha as (v & Hv & E).
  apply Z.eqb_eq in E. rewrite E. exact Hv.
Qed.

(** X11.  After a soft delete, the deleting user's listing of their own
    collection builds either no predicate at all or a predicate that selects
    no row of the deleted id, when the storage layer matches the [owner]
    parameter of the listing with that user's id only.  It builds none when
    the user has no material left and the listing has no [type] and no
    [category] with a material: the listing is then unfiltered. *)
Theorem deleted_leaves_own_listing (request listing : Request)
    (s s' : state) (response : response) (o : string) :
  MaterialView_delete request s = (Ok response, s') ->
  user listing = user request ->
  get "owner" (query listing) = Some o ->
  py_int o = Some (u_id (user request)) ->
  (forall z, sql_eq_int z o = true -> z = u_id (user request)) ->
  exists material q,
    head (List.filter (get_queryset request) (materials (current s)))
    = Some material
    /\ get_queryset_by_user listing (current s') = Ok q
    /\ (forall c, q = Some c ->
         forall row, In row (select_where (Some c) (current s')) ->
           m_id row <> m_id material)
    /\ (q = None <->
        owner_rows (current s') o = []
        /\ getall "type" (query listing) = None
        /\ forall cats, getall "category" (query listing) = Some cats ->
             resolves_to_nothing (current s') cats = true).
Proof.
  intros H Hu Ho Hpy Heq. apply MaterialView_delete_Ok in H
    as (material & Hm & _ & _ & ->).
  exists material.
  exists (refine listing (current (soft_deleted request material s)) None).
  split; [exact Hm|].
  rewrite get_queryset_by_user_refine. unfold initial_queryset.
  rewrite Ho, Hpy, Hu, Z.eqb_refl. simpl.
  split; [reflexivity|]. split.
  - intros c Hc row Hr. apply filter_In in Hr as [_ Hh]. simpl in Hh.
    pose proof (refine_owner_rows _ _ _ _ _ _ Ho Hc Hh) as Hin.
    unfold owner_rows, soft_deleted in Hin. simpl in Hin.
    apply in_map_iff in Hin as (link & Hl & Hin).
    apply filter_In in Hin as [Hin Hs].
    apply filter_In in Hin as [_ Hkeep].
    apply Heq in Hs. rewrite Hs, Z.eqb_refl, andb_true_r in Hkeep.
    apply negb_true_iff, Z.eqb_neq in Hkeep. congruence.
  - rewrite refine_None. split.
    + intros (_ & Hc & Ht & Hr).
      split; [exact (Hr o Ho)|]. split; [exact Ht | exact Hc].
    + intros (Hr & Ht & Hc). split; [reflexivity|]. split; [exact Hc|].
      split; [exact Ht|]. intros o' Ho'. rewrite Ho in Ho'.
      injection Ho' as <-. exact Hr.
Qed.

End Views.

(** * Concrete runs *)

Section Runs.

Import Sample.

Local Abbreviation queryset_of := (get_queryset_by_user int eq_int).
Local Abbreviation rows_of := (select_where String.eqb like).
Local Abbreviation search :=
  (search_materials int eq_int String.eqb like all_rows).
Local Abbreviation post :=
  (multipart_post loads is_valid MEDIA_URL MEDIA_ROOT path_to_file file_name
     now upper).
Local Abbreviation unit_of_work := (write_unit now).
Local Abbreviation delete_material :=
  (MaterialView_delete eq_int MODERATOR MEDIA_URL BASE_DIR).
Local Abbreviation add := (add_material_to_user_collection int_of).
Local Abbreviation remove := (remove_material_from_user_collection eq_int).

(** C1.  Alice lists her own collection filtered by category 7, which has
    no material: the category dimension is dropped and both of her
    materials are selected. *)
Theorem empty_category_dropped_for_owner :
  let request := asks alice [("owner", "1"); ("category", "7")] in
  getall "category" (query request) = Some ["7"]
  /\ category_rows eq_int tables "7" = []
  /\ queryset_of request tables = Ok (Some (Or (IdEq 10) (IdEq 11)))
  /\ rows_of (Some (Or (IdEq 10) (IdEq 11))) tables = [notes; draft].
Proof. repeat split. Qed.

(** The same filter in a listing of everybody's materials selects
    nothing. *)
Example empty_category_for_others :
  exists q, queryset_of (asks bob [("category", "7")]) tables = Ok q
    /\ rows_of q tables = [].
Proof. eexists; split; reflexivity. Qed.

(** C2.  Alice lists her own collection filtered by category 7, which has
    no material, and by type pdf.  The predicate built is
    [type = 'pdf' AND (id = 10 OR id = 11)]: it has a conjunct for the type
    and one for the owner, none for the category, and it selects [notes],
    although no row satisfies the category dimension and so none satisfies
    the conjunction of the supplied dimensions. *)
Theorem composition_drops_empty_category :
  let request :=
    asks alice [("owner", "1"); ("category", "7"); ("type", "pdf")] in
  let q := And (TypeEq "pdf") (Or (IdEq 10) (IdEq 11)) in
  getall "category" (query request) = Some ["7"]
  /\ queryset_of request tables = Ok (Some q)
  /\ conjuncts q = [TypeEq "pdf"; Or (IdEq 10) (IdEq 11)]
  /\ rows_of (Some q) tables = [notes]
  /\ (forall row,
        dimension (getall "category" (query request))
          (existsb (in_category eq_int tables row)) = false)
  /\ (forall row,
        listing_predicate eq_int String.eqb request tables row = false)
  /\ (forall row,
        spec_predicate eq_int String.eqb like request tables row = false).
Proof.
  split; [reflexivity|]. split; [reflexivity|]. split; [reflexivity|].
  split; [reflexivity|].
  assert (H : forall row,
             dimension
               (getall "category"
                  (query (asks alice [("owner", "1"); ("category", "7");
                                      ("type", "pdf")])))
               (existsb (in_category eq_int tables row)) = false)
    by (intros row; reflexivity).
  split; [exact H|].
  assert (L : forall row,
             listing_predicate eq_int String.eqb
               (asks alice [("owner", "1"); ("category", "7"); ("type", "pdf")])
               tables row = false).
  { intros row. unfold listing_predicate. rewrite H.
    rewrite andb_false_r. reflexivity. }
  split; [exact L|].
  intros row. unfold spec_predicate. rewrite L. reflexivity.
Qed.

(** An empty collection filtered by type obeys the rule: the predicate is
    [type = 'pdf' AND NULL], which selects nothing. *)
Lemma composition_rule_witness :
  let request := asks bob [("owner", "2"); ("type", "pdf")] in
  exists q, queryset_of request tables = Ok q
    /\ forall row,
         matches String.eqb like q row
         = (requests_own int request || visible row)
           && listing_predicate eq_int String.eqb request tables row.
Proof.
  apply (composition_rule int eq_int String.eqb like).
  - intros o [= <-]. discriminate.
  - reflexivity.
Defined.

Example empty_collection_by_type :
  let request := asks bob [("owner", "2"); ("type", "pdf")] in
  queryset_of request tables = Ok (Some (And (TypeEq "pdf") Null))
  /\ rows_of (Some (And (TypeEq "pdf") Null)) tables = [].
Proof. repeat split. Qed.

(** Alice's request for a category that has a material. *)
Example own_collection_by_category_and_type :
  let request :=
    asks alice [("owner", "1"); ("category", "3"); ("type", "pdf")] in
  let q := And (And (IdEq 10) (TypeEq "pdf")) (Or (IdEq 10) (IdEq 11)) in
  queryset_of request tables = Ok (Some q)
  /\ rows_of (Some q) tables = [notes].
Proof. repeat split. Qed.

Lemma visibility_floor_witness :
  (exists c, queryset_of (asks bob [("owner", "1")]) tables = Ok (Some c)
     /\ In (IsOpenEq true) (conjuncts c)
     /\ In (DeletedEq false) (conjuncts c)
     /\ forall row, In row (rows_of (Some c) tables) ->
          m_is_open row = true /\ m_deleted row = false)
  /\ (exists q, queryset_of (asks alice [("owner", "1")]) tables = Ok q
        /\ reads_visibility_opt q = false).
Proof.
  split.
  - apply (proj1 (visibility_floor int eq_int String.eqb like
                    (asks bob [("owner", "1")]) tables)).
    right. exists "1", 1%Z. repeat split. discriminate.
  - apply (proj2 (visibility_floor int eq_int String.eqb like
                    (asks alice [("owner", "1")]) tables)).
    exists "1". split; reflexivity.
Defined.

(** C5, as stated, fails: an empty [text] is searched for, and the search
    succeeds. *)
Lemma search_empty_text_succeeds :
  get "text" (query (asks bob [("text", "")])) = Some ""
  /\ search (asks bob [("text", "")]) tables
     = Ok {| status := 200;
             content := Documents [MaterialSerializer_to_json tables notes] |}.
Proof. split; reflexivity. Qed.

Lemma search_requires_text_witness :
  search (asks bob []) tables
  = Raise (ValidationError [("text", "This query parameters is required")])
  /\ forall errors,
       search (asks bob [("text", "Alg")]) tables
       <> Raise (ValidationError errors).
Proof.
  split.
  - apply (proj1 (search_requires_text int eq_int String.eqb like all_rows
                    (asks bob []) tables)).
    reflexivity.
  - apply (proj2 (search_requires_text int eq_int String.eqb like all_rows
                    (asks bob [("text", "Alg")]) tables) "Alg").
    reflexivity.
Defined.

(** A creation whose second category does not exist fails at the
    last insert, after the material, the link and the first category link
    were written; the response carries the exception and the tables are
    those of the start. *)
Example rollback_after_partial_inserts :
  let request := posts alice (form "[7,99]") in
  (exists vd s1 s2,
      current s1 = tables
      /\ unit_of_work request vd s1 = (Raise (IntegrityError 1452), s2)
      /\ length (materials (current s2)) = 3
      /\ length (material_users (current s2)) = 4
      /\ length (material_categories (current s2)) = 2)
  /\ fst (post request start)
     = Ok {| status := 200; content := ExceptionDetail (IntegrityError 1452) |}
  /\ current (snd (post request start)) = tables.
Proof.
  split.
  - exists (<["owner" := VInt 1]>
              (<["extension" := VStr "PDF"]>
                 (<["file" := VStr "/media/materials/2019/5/17/sets.pdf"]>
                    (<["name" := VStr "Topology"]>
                       (<["author" := VStr "Hausdorff"]>
                          (<["type" := VStr "pdf"]>
                             (<["is_open" := VBool true]>
                                (<["categories" :=
                                     VCategories
                                       [{| c_id := 7; c_name := "" |};
                                        {| c_id := 99; c_name := "" |}]]>
                                   ∅)))))))).
    exists start. eexists. split; [reflexivity|].
    split; [vm_compute; reflexivity|]. repeat split.
  - split; vm_compute; reflexivity.
Qed.

Example creation_commits :
  let request := posts alice (form "[3,7]") in
  exists doc,
    fst (post request start) = Ok {| status := 201; content := Document (Some doc) |}
    /\ m_id (doc_row doc) = 12%Z
    /\ m_file (doc_row doc) = "/media/materials/2019/5/17/sets.pdf"
    /\ m_extension (doc_row doc) = "PDF"
    /\ doc_owner doc = Some alice
    /\ map (option_map c_id) (doc_categories doc) = [Some 3; Some 7]%Z
    /\ material_users (current (snd (post request start)))
       = (material_users tables ++ [{| mu_material := 12; mu_user := 1 |}])%list.
Proof. eexists. repeat split; vm_compute; reflexivity. Qed.

(** The failure that the unit of work meets on the validated data of these
    two requests: the missing category of the first, none on the second,
    which links the new material to each of its two categories. *)
Example unit_failure_missing_category :
  let request := posts alice (form "[7,99]") in
  match
    prepare loads is_valid MEDIA_URL MEDIA_ROOT path_to_file file_name now
      upper request start
  with
  | (Ok validated_data, _) =>
      unit_failure now request validated_data tables
      = Some (IntegrityError 1452)
  | (Raise _, _) => False
  end.
Proof. vm_compute. reflexivity. Qed.

Example unit_failure_none :
  let request := posts alice (form "[3,7]") in
  match
    prepare loads is_valid MEDIA_URL MEDIA_ROOT path_to_file file_name now
      upper request start
  with
  | (Ok validated_data, _) =>
      unit_failure now request validated_data tables = None
  | (Raise _, _) => False
  end
  /\ material_categories (current (snd (post request start)))
     = (material_categories tables
        ++ [{| mc_material := 12; mc_category := 3 |};
            {| mc_material := 12; mc_category := 7 |}])%list.
Proof. split; vm_compute; reflexivity. Qed.

(** C7.  A creation request whose body cannot be read is not answered with
    a validation error: it raises [KeyError]. *)
Theorem creation_without_body_raises_KeyError :
  post (asks alice []) start = (Raise (KeyError "categories"), start).
Proof. apply multipart_post_without_body. reflexivity. Qed.

Example creation_with_bad_json :
  post (posts alice (form "{")) start
  = (Raise (ValidationError [("categories", "JSON decode error")]), start).
Proof.
  apply (multipart_post_bad_json _ _ _ _ _ _ _ _ _ _ "{"); try reflexivity.
  discriminate.
Qed.

Lemma owner_is_requester_witness :
  exists s1' s2' row1 row2,
    snd (post (posts alice (form "[3]")) start) = s1'
    /\ snd (post (posts alice (<["owner" := VInt 2]> (form "[3]"))) start) = s2'
    /\ materials (current s1') = (materials tables ++ [row1])%list
    /\ materials (current s2') = (materials tables ++ [row2])%list
    /\ m_owner row1 = 1%Z
    /\ m_owner row2 = m_owner row1.
Proof.
  pose (r1 := post (posts alice (form "[3]")) start).
  pose (r2 := post (posts alice (<["owner" := VInt 2]> (form "[3]"))) start).
  assert (H1 : exists response, r1 = (Ok response, snd r1)
                                /\ status response = 201%Z)
    by (eexists; split; vm_compute; reflexivity).
  assert (H2 : exists response, r2 = (Ok response, snd r2)
                                /\ status response = 201%Z)
    by (eexists; split; vm_compute; reflexivity).
  destruct H1 as (response1 & H1 & Hs1), H2 as (response2 & H2 & Hs2).
  assert (Hu : user (posts alice (form "[3]"))
               = user (posts alice (<["owner" := VInt 2]> (form "[3]"))))
    by reflexivity.
  destruct (owner_is_requester loads is_valid MEDIA_URL MEDIA_ROOT
              path_to_file file_name now upper
              (posts alice (form "[3]"))
              (posts alice (<["owner" := VInt 2]> (form "[3]")))
              start start response1 response2 (snd r1) (snd r2)
              Hu H1 Hs1 H2 Hs2) as (row1 & row2 & Hm1 & Hm2 & Ho1 & Ho2).
  exists (snd r1), (snd r2), row1, row2. repeat split; assumption.
Defined.

Lemma add_twice_conflicts_witness :
  add (asks alice []) start
  = (Raise (ValidationError [("detail", "Material is already added")]), start)
  /\ forall errors,
       fst (add (asks bob []) start) <> Raise (ValidationError errors).
Proof.
  split.
  - apply (proj1 (add_twice_conflicts int_of (asks alice []) start)).
    reflexivity.
  - apply (proj2 (add_twice_conflicts int_of (asks bob []) start)).
    reflexivity.
Defined.

Example add_then_add_again :
  exists s1,
    add (asks bob []) start = (Ok {| status := 200; content := NoBody |}, s1)
    /\ material_users (current s1)
       = (material_users tables ++ [{| mu_material := 10; mu_user := 2 |}])%list
    /\ add (asks bob []) s1
       = (Raise (ValidationError [("detail", "Material is already added")]), s1).
Proof. eexists. repeat split. Qed.

(** C6, as stated, fails: when a moderator deletes Alice's material, the
    link that goes is the moderator's own; the owner's link stays. *)
Lemma soft_delete_by_moderator :
  m_owner notes = u_id alice
  /\ fst (delete_material (asks carol []) start)
     = Ok {| status := 204; content := NoBody |}
  /\ material_users (current (snd (delete_material (asks carol []) start)))
     = [{| mu_material := 10; mu_user := 1 |};
        {| mu_material := 11; mu_user := 1 |}].
Proof. repeat split. Qed.

Lemma soft_delete_witness :
  exists s',
    delete_material (asks alice []) start
    = (Ok {| status := 204; content := NoBody |}, s')
    /\ materials (current s')
       = map (fun r => if get_queryset eq_int (asks alice []) r
                       then mark_deleted r else r) (materials tables)
    /\ map m_id (materials (current s')) = map m_id (materials tables)
    /\ In (mark_deleted notes) (materials (current s'))
    /\ material_users (current s')
       = List.filter
           (fun r => negb (Z.eqb (mu_material r) (m_id notes)
                           && Z.eqb (mu_user r) (u_id alice)))
           (material_users tables)
    /\ (forall r, In r (material_users tables) ->
          mu_user r <> u_id alice ->
          In r (material_users (current s'))).
Proof.
  apply (soft_delete eq_int MODERATOR MEDIA_URL BASE_DIR (asks alice []) start
           notes).
  - reflexivity.
  - left. reflexivity.
Defined.

Example remove_absent_link :
  remove (asks bob []) start
  = (Ok {| status := 200; content := NoBody |},
     with_current (set_material_users (material_users tables) tables) start).
Proof. reflexivity. Qed.

(** ** Runs of the further properties *)

Local Abbreviation listing_of :=
  (MaterialsView_get int eq_int String.eqb like None).
Local Abbreviation dir := (upload_dir MEDIA_ROOT path_to_file now).

Lemma owner_not_a_number_witness :
  let request := asks bob [("owner", "abc"); ("text", "Alg")] in
  queryset_of request tables = Raise ValueError
  /\ listing_of request tables = Raise ValueError
  /\ (forall text, get "text" (query request) = Some text ->
      search request tables = Raise ValueError).
Proof.
  apply (owner_not_a_number int eq_int String.eqb like None all_rows
           (asks bob [("owner", "abc"); ("text", "Alg")]) tables "abc");
    reflexivity.
Defined.

Lemma no_predicate_witness :
  queryset_of (asks bob [("owner", "2")]) tables = Ok None.
Proof.
  apply (proj2 (no_predicate int eq_int (asks bob [("owner", "2")]) tables)).
  repeat split.
  - intros cats [=].
  - intros o [= <-]. reflexivity.
Defined.

Lemma added_dimension_narrows_witness :
  exists q',
    queryset_of (with_query [("type", "pdf")] (asks bob [])) tables = Ok q'
    /\ (forall c, Some visibility = Some c ->
         exists c', q' = Some c'
           /\ forall row,
                holds String.eqb like c' row = true ->
                holds String.eqb like c row = true)
    /\ (forall row,
          matches String.eqb like q' row = true ->
          matches String.eqb like (Some visibility) row = true).
Proof.
  apply (added_dimension_narrows int eq_int String.eqb like (asks bob [])
           tables "type" "pdf" (Some visibility)).
  - right. reflexivity.
  - reflexivity.
  - reflexivity.
Defined.

(** Bob's empty collection has no predicate, and none either once filtered
    by a category without material. *)
Example added_category_without_predicate :
  queryset_of (asks bob [("owner", "2")]) tables = Ok None
  /\ queryset_of (with_query [("category", "7"); ("owner", "2")] (asks bob []))
       tables = Ok None.
Proof. split; reflexivity. Qed.

Lemma search_under_floor_witness :
  exists rows,
    search (asks bob [("text", "Alg")]) tables
    = Ok {| status := 200;
            content :=
              Documents
                (map (MaterialSerializer_to_json tables)
                   (all_rows (asks bob [("text", "Alg")]) rows)) |}
    /\ forall row, In row rows ->
         In row (materials tables)
         /\ m_is_open row = true /\ m_deleted row = false
         /\ text_matches like row "Alg" = true.
Proof.
  apply (search_under_floor int eq_int String.eqb like all_rows
           (asks bob [("text", "Alg")]) tables "Alg").
  - reflexivity.
  - left. reflexivity.
Defined.

Lemma delete_forbidden_witness :
  delete_material (asks bob []) start = (Raise PermissionDenied, start).
Proof.
  apply (delete_forbidden eq_int MODERATOR MEDIA_URL BASE_DIR (asks bob [])
           start notes).
  - reflexivity.
  - discriminate.
  - reflexivity.
Defined.

Lemma delete_missing_witness :
  delete_material
    {| query := []; user := alice; pk := "99"; can_read_body := false;
       multipart_data := ∅ |} start
  = (Raise AttributeError, start).
Proof.
  apply (delete_missing eq_int MODERATOR MEDIA_URL BASE_DIR). reflexivity.
Defined.

Lemma delete_twice_witness :
  let s' := snd (delete_material (asks alice []) start) in
  delete_material (asks alice []) s'
  = (Ok {| status := 204; content := NoBody |}, s').
Proof.
  apply (delete_twice eq_int MODERATOR MEDIA_URL BASE_DIR (asks alice [])
           start _ {| status := 204; content := NoBody |}).
  reflexivity.
Defined.

Lemma deleted_not_listed_witness :
  let s' := snd (delete_material (asks alice []) start) in
  exists c,
    queryset_of (asks bob []) (current s') = Ok (Some c)
    /\ forall row, In row (rows_of (Some c) (current s')) ->
         get_queryset eq_int (asks alice []) row = false.
Proof.
  apply (deleted_not_listed int eq_int String.eqb like MODERATOR MEDIA_URL
           BASE_DIR (asks alice []) (asks bob []) start _
           {| status := 204; content := NoBody |}).
  - reflexivity.
  - left. reflexivity.
Defined.

Lemma creation_raise_leaves_no_trace_witness :
  snd (post (asks alice []) start) = start.
Proof.
  apply (creation_raise_leaves_no_trace loads is_valid MEDIA_URL MEDIA_ROOT
           path_to_file file_name now upper (asks alice []) start _
           (KeyError "categories")).
  reflexivity.
Defined.

Lemma upload_survives_rollback_witness :
  let s' := snd (post (posts alice (form "[7,99]")) start) in
  snapshot s' = None
  /\ exists name data,
       disk s' !! (dir ++ "/" ++ name) = Some data
       /\ forall path, path <> dir ++ "/" ++ name ->
            disk s' !! path = disk start !! path.
Proof.
  pose (r := post (posts alice (form "[7,99]")) start).
  assert (H : r = (Ok {| status := 200;
                         content := ExceptionDetail (IntegrityError 1452) |},
                   snd r))
    by (vm_compute; reflexivity).
  exact (upload_survives_rollback loads is_valid MEDIA_URL MEDIA_ROOT
           path_to_file file_name now upper (posts alice (form "[7,99]")) start
           (snd r) _ H).
Defined.

Lemma stored_extension_witness :
  let s' := snd (post (posts alice (form "[3]")) start) in
  exists row name,
    In row (materials (current s'))
    /\ m_id row = lastrowid tables
    /\ m_file row = url_of MEDIA_URL now name
    /\ (forall base ext,
          name = base ++ String "." ext -> rfind "." ext = (-1)%Z ->
          m_extension row = upper ext)
    /\ (rfind "." name = (-1)%Z -> m_extension row = upper name).
Proof.
  pose (r := post (posts alice (form "[3]")) start).
  assert (H : exists response, r = (Ok response, snd r)
                               /\ status response = 201%Z)
    by (eexists; split; vm_compute; reflexivity).
  destruct H as (response & H & Hs).
  exact (stored_extension loads is_valid MEDIA_URL MEDIA_ROOT path_to_file
           file_name now upper (posts alice (form "[3]")) start (snd r) response
           H Hs).
Defined.

Lemma created_document_witness :
  let r := post (posts alice (form "[3,7]")) start in
  exists response doc cs,
    fst r = Ok response
    /\ content response = Document (Some doc)
    /\ In (doc_row doc) (materials (current (snd r)))
    /\ m_id (doc_row doc) = lastrowid tables
    /\ (exists u, doc_owner doc = Some u /\ u_id u = u_id alice)
    /\ material_categories (current (snd r))
       = (material_categories tables
          ++ map (fun c => {| mc_material := m_id (doc_row doc);
                              mc_category := c_id c |}) cs)%list
    /\ map (option_map c_id) (doc_categories doc)
       = map (fun c => Some (c_id c)) cs.
Proof.
  pose (r := post (posts alice (form "[3,7]")) start).
  assert (H : exists response, r = (Ok response, snd r)
                               /\ status response = 201%Z)
    by (eexists; split; vm_compute; reflexivity).
  destruct H as (response & H & Hs).
  assert (Hl : links_resolve (current start)).
  { intros mc [<-|[]]. reflexivity. }
  destruct (created_document loads is_valid MEDIA_URL MEDIA_ROOT path_to_file
              file_name now upper (posts alice (form "[3,7]")) start (snd r)
              response Hl H Hs) as (doc & cs & Hd).
  exists response, doc, cs. split; [|exact Hd].
  change (fst r = Ok response). rewrite H. reflexivity.
Defined.

Lemma created_is_listed_witness :
  let s' := snd (post (posts alice (form "[3]")) start) in
  exists c row,
    queryset_of (asks alice [("owner", "1")]) (current s') = Ok (Some c)
    /\ In row (rows_of (Some c) (current s'))
    /\ m_id row = lastrowid tables.
Proof.
  pose (r := post (posts alice (form "[3]")) start).
  assert (H : exists response, r = (Ok response, snd r)
                               /\ status response = 201%Z)
    by (eexists; split; vm_compute; reflexivity).
  destruct H as (response & H & Hs).
  exact (created_is_listed int eq_int String.eqb like loads is_valid
           MEDIA_URL MEDIA_ROOT path_to_file file_name now upper
           (posts alice (form "[3]")) (asks alice [("owner", "1")])
           start (snd r) response "1" H Hs
           eq_refl eq_refl eq_refl eq_refl eq_refl eq_refl).
Defined.

Lemma add_then_remove_witness :
  let s1 := snd (add (asks bob []) start) in
  exists s2,
    remove (asks bob []) s1 = (Ok {| status := 200; content := NoBody |}, s2)
    /\ current s2 = tables
    /\ frame start s2.
Proof.
  apply (add_then_remove eq_int int_of (asks bob []) start _
           {| status := 200; content := NoBody |}).
  - intros z. reflexivity.
  - reflexivity.
Defined.

Lemma listing_under_floor_witness :
  exists docs,
    MaterialsView_get int eq_int String.eqb like (Some all_rows)
      (asks bob []) tables
    = Ok {| status := 200; content := Documents docs |}
    /\ forall doc, In doc docs ->
         In (doc_row doc) (materials tables)
         /\ m_is_open (doc_row doc) = true
         /\ m_deleted (doc_row doc) = false.
Proof.
  apply (listing_under_floor int eq_int String.eqb like (Some all_rows)
           (asks bob []) tables).
  - intros paginate [= <-] rows row H. exact H.
  - left. reflexivity.
Defined.

Lemma deleted_leaves_own_listing_witness :
  let s' := snd (delete_material (asks alice []) start) in
  exists material q,
    head (List.filter (get_queryset eq_int (asks alice []))
            (materials tables)) = Some material
    /\ queryset_of (asks alice [("owner", "1")]) (current s') = Ok q
    /\ (forall c, q = Some c ->
         forall row, In row (rows_of (Some c) (current s')) ->
           m_id row <> m_id material)
    /\ (q = None <->
        owner_rows eq_int (current s') "1" = []
        /\ getall "type" (query (asks alice [("owner", "1")])) = None
        /\ forall cats,
             getall "category" (query (asks alice [("owner", "1")]))
             = Some cats ->
             resolves_to_nothing eq_int (current s') cats = true).
Proof.
  apply (deleted_leaves_own_listing int eq_int String.eqb like MODERATOR
           MEDIA_URL BASE_DIR (asks alice []) (asks alice [("owner", "1")])
           start _ {| status := 204; content := NoBody |} "1").
  - reflexivity.
  - reflexivity.
  - reflexivity.
  - reflexivity.
  - intros z H. apply Z.eqb_eq. exact H.
Defined.

(** Alice deletes material 10 and lists her collection: the predicate is
    [id = 11].  Carol, a moderator whose only material is 10, deletes it and
    lists hers: there is no predicate, and the unfiltered listing has the
    deleted material. *)
Example own_listing_after_delete :
  let after_alice := current (snd (delete_material (asks alice []) start)) in
  let after_carol := current (snd (delete_material (asks carol []) start)) in
  queryset_of (asks alice [("owner", "1")]) after_alice = Ok (Some (IdEq 11))
  /\ map m_id (rows_of (Some (IdEq 11)) after_alice) = [11%Z]
  /\ queryset_of (asks carol [("owner", "3")]) after_carol = Ok None
  /\ map m_id (rows_of None after_carol) = [10%Z; 11%Z]
  /\ map m_deleted (rows_of None after_carol) = [true; false].
Proof. repeat split. Qed.

Lemma search_adds_text_witness :
  search (asks bob [("text", "Alg")]) tables
  = Ok {| status := 200;
          content :=
            Documents
              (map (MaterialSerializer_to_json tables)
                 (all_rows (asks bob [("text", "Alg")])
                    (List.filter
                       (fun row => holds String.eqb like visibility row
                                   && text_matches like row "Alg")
                       (materials tables)))) |}.
Proof.
  apply (search_adds_text int eq_int String.eqb like all_rows
           (asks bob [("text", "Alg")]) tables "Alg" visibility);
    reflexivity.
Defined.

End Runs.
